(** * The response adapter of [mytests/custom_model_example.py]

    A shallow embedding of [CustomOpenAICompatibleModel]: the request it
    builds, the call boundary with its catch-all handler, the parser of a
    completed response and the asynchronous generator that turns a stream of
    chunks into cumulative responses. *)

From Stdlib Require Import ZArith QArith String List Lia.
From stdpp Require Import base option list gmap strings.

Set Warnings "-register-all".

Local Open Scope Z_scope.
Local Open Scope string_scope.

(** ** Python values and truthiness *)

(** The JSON-like values that travel in the request: messages, tool
    descriptors and the extra keyword arguments are passed through
    unmodified. *)
Inductive PyValue : Type :=
| PyNone
| PyBool (b : bool)
| PyInt (n : Z)
| PyFloat (q : Q)
| PyStr (s : string)
| PyList (xs : list PyValue)
| PyDict (kv : list (string * PyValue)).

(** The value of a guard [... and x] on [x : str | None] when it is truthy:
    [None] and the empty string are falsy. *)
Definition truthy_str (o : option string) : option string :=
  match o with
  | Some s => if String.eqb s "" then None else Some s
  | None => None
  end.

(** The same for [l : list | None]: [None] and the empty list are falsy. *)
Definition truthy_list {A} (o : option (list A)) : option (list A) :=
  match o with
  | Some (x :: l) => Some (x :: l)
  | _ => None
  end.

(** [n or 0] for [n : int | None]. *)
Definition or_zero (o : option Z) : Z :=
  match o with
  | Some n => if Z.eqb n 0 then 0 else n
  | None => 0
  end.

(** ** Time

    A [datetime] has microsecond resolution; it is kept as a count of
    microseconds, and so is the [timedelta] between two of them.
    [total_seconds] is that count divided by [10**6]. *)
Definition datetime := Z.
Definition timedelta := Z.

Definition total_seconds (d : timedelta) : Q := Qmake d 1000000.

(** ** What the client hands back *)

Record ChatCompletionMessage := { message_content : option string }.
Record Choice := { message : ChatCompletionMessage }.
Record CompletionUsage :=
  { prompt_tokens : option Z; completion_tokens : option Z }.
Record ChatCompletion :=
  { choices : list Choice; response_usage : option CompletionUsage }.

Record ChoiceDelta := { delta_content : option string }.
Record ChunkChoice := { delta : ChoiceDelta }.
Record ChatCompletionChunk := { chunk_choices : list ChunkChoice }.

(** An instance of [Exception], as far as the adapter looks at it: [str(e)]. *)
Record PyException := { exc_str : string }.

(** [client.chat.completions.create] returns a [ChatCompletion] or an
    [AsyncStream] of chunks. A stream that is delivered to its end is the
    finite list of its chunks; a stream that fails while it is read is the
    list of the chunks it delivers and the exception it raises in place of
    the next one. *)
Inductive TransportObject :=
| ChatCompletionObj (c : ChatCompletion)
| AsyncStreamObj (chunks : list ChatCompletionChunk)
| BrokenStreamObj (chunks : list ChatCompletionChunk) (e : PyException).

Inductive Outcome :=
| Raises (e : PyException)
| Returns (response : TransportObject).

(** ** What the adapter hands back *)

Inductive ContentBlock :=
| TextBlock (text : string)
| ThinkingBlock (thinking : string)
| ToolUseBlock (id name : string) (input : PyValue).

Record ChatUsage :=
  { input_tokens : Z; output_tokens : Z; time : Q }.

Record ChatResponse :=
  { content : list ContentBlock; usage : option ChatUsage }.

(** The constructor arguments the methods read. *)
Record CustomOpenAICompatibleModel :=
  { model_name : string; stream : bool; temperature : Q; max_tokens : Z }.

(** The world around one call: the client, and the two readings of
    [datetime.now()], the one taken before the request is sent and the one
    taken when the usage record is built. *)
Record Env :=
  { create : gmap string PyValue → Outcome;
    now_at_call : datetime;
    now_at_parse : datetime }.

(** ** [_parse_response] *)

(** [response.choices and response.choices[0].message.content], when truthy. *)
Definition first_choice_content (response : ChatCompletion) : option string :=
  match choices response with
  | c :: _ => truthy_str (message_content (message c))
  | [] => None
  end.

Definition _parse_response (start_time now : datetime)
    (response : ChatCompletion) : ChatResponse :=
  let content_blocks :=
    match first_choice_content response with
    | Some text => [TextBlock text]
    | None => []
    end in
  let usage :=
    match response_usage response with
    | Some u =>
        Some {| input_tokens := or_zero (prompt_tokens u);
                output_tokens := or_zero (completion_tokens u);
                time := total_seconds (now - start_time) |}
    | None => None
    end in
  {| content := content_blocks; usage := usage |}.

(** ** [_parse_stream_response] *)

(** [chunk.choices and chunk.choices[0].delta.content], when truthy. *)
Definition chunk_delta (chunk : ChatCompletionChunk) : option string :=
  match chunk_choices chunk with
  | c :: _ => truthy_str (delta_content (delta c))
  | [] => None
  end.

(** Everything the generator yields from the head of its loop on, given the
    text accumulated so far and the chunks still to come. The reading [now]
    of the clock is the one taken once the stream is exhausted. *)
Fixpoint stream_from (start_time now : datetime) (accumulated_text : string)
    (response : list ChatCompletionChunk) : list ChatResponse :=
  match response with
  | chunk :: rest =>
      match chunk_delta chunk with
      | Some content =>
          let accumulated_text := accumulated_text ++ content in
          {| content := [TextBlock accumulated_text]; usage := None |}
            :: stream_from start_time now accumulated_text rest
      | None => stream_from start_time now accumulated_text rest
      end
  | [] =>
      let usage :=
        {| input_tokens := 0; output_tokens := 0;
           time := total_seconds (now - start_time) |} in
      [ {| content := [TextBlock accumulated_text]; usage := Some usage |} ]
  end.

Definition _parse_stream_response (start_time now : datetime)
    (response : list ChatCompletionChunk) : list ChatResponse :=
  stream_from start_time now "" response.

(** What the loop of the generator yields over the chunks of a stream that
    then fails: the exception leaves the loop, and the code after the loop
    does not run. *)
Fixpoint yielded_in_loop (accumulated_text : string)
    (response : list ChatCompletionChunk) : list ChatResponse :=
  match response with
  | chunk :: rest =>
      match chunk_delta chunk with
      | Some content =>
          let accumulated_text := accumulated_text ++ content in
          {| content := [TextBlock accumulated_text]; usage := None |}
            :: yielded_in_loop accumulated_text rest
      | None => yielded_in_loop accumulated_text rest
      end
  | [] => []
  end.

(** ** [__call__] *)

(** The keyword arguments of the request: the five fixed entries, overridden
    by [**kwargs], then [tools] and [tool_choice] when they are truthy. *)
Definition request_kwargs (self : CustomOpenAICompatibleModel)
    (messages : list PyValue) (tools : option (list PyValue))
    (tool_choice : option string) (kwargs : gmap string PyValue)
    : gmap string PyValue :=
  let request_kwargs :=
    kwargs ∪
    <["model" := PyStr (model_name self)]>
    (<["messages" := PyList messages]>
    (<["stream" := PyBool (stream self)]>
    (<["temperature" := PyFloat (temperature self)]>
    (<["max_tokens" := PyInt (max_tokens self)]> ∅)))) in
  let request_kwargs :=
    match truthy_list tools with
    | Some tools => <["tools" := PyList tools]> request_kwargs
    | None => request_kwargs
    end in
  match truthy_str tool_choice with
  | Some choice => <["tool_choice" := PyStr choice]> request_kwargs
  | None => request_kwargs
  end.

(** The text of the response that stands for a failure. *)
Definition failure_response (e : PyException) : ChatResponse :=
  {| content := [TextBlock ("模型调用失败: " ++ exc_str e)]; usage := None |}.

(** [response.choices] on an object that has no such attribute. *)
Definition AttributeError_choices : PyException :=
  {| exc_str := "'AsyncStream' object has no attribute 'choices'" |}.

(** [async for] over an object that is no asynchronous iterable. *)
Definition TypeError_aiter : PyException :=
  {| exc_str :=
       "'async for' requires an object with __aiter__ method, got ChatCompletion" |}.

(** The generator object of [_parse_stream_response]: it has captured its
    two arguments and has not run yet. *)
Record AsyncGenerator :=
  { gen_start_time : datetime; gen_response : TransportObject }.

(** What a call evaluates to. *)
Inductive CallResult :=
| Single (r : ChatResponse)
| Stream (g : AsyncGenerator).

Definition __call__ (self : CustomOpenAICompatibleModel) (env : Env)
    (messages : list PyValue) (tools : option (list PyValue))
    (tool_choice : option string) (kwargs : gmap string PyValue)
    : CallResult :=
  let request := request_kwargs self messages tools tool_choice kwargs in
  let start_time := now_at_call env in
  match create env request with
  | Returns response =>
      if stream self then
        Stream {| gen_start_time := start_time; gen_response := response |}
      else
        match response with
        | ChatCompletionObj c =>
            Single (_parse_response start_time (now_at_parse env) c)
        | AsyncStreamObj _ | BrokenStreamObj _ _ =>
            Single (failure_response AttributeError_choices)
        end
  | Raises e => Single (failure_response e)
  end.

(** Running a generator as [async for] does, outside [__call__]: the values
    it yields, and the exception that leaves it and reaches the consumer, if
    any. *)
Definition consume (now : datetime) (g : AsyncGenerator)
    : list ChatResponse * option PyException :=
  match gen_response g with
  | AsyncStreamObj chunks =>
      (_parse_stream_response (gen_start_time g) now chunks, None)
  | BrokenStreamObj chunks e => (yielded_in_loop "" chunks, Some e)
  | ChatCompletionObj _ => ([], Some TypeError_aiter)
  end.

(** The call is a streaming one that yields [seq] and then stops. *)
Definition yields (self : CustomOpenAICompatibleModel) (env : Env)
    (messages : list PyValue) (tools : option (list PyValue))
    (tool_choice : option string) (kwargs : gmap string PyValue)
    (seq : list ChatResponse) : Prop :=
  ∃ g, __call__ self env messages tools tool_choice kwargs = Stream g
       ∧ consume (now_at_parse env) g = (seq, None).

(** ** The generator, one value at a time

    The sequence above is what a caller collects with [async for] from a
    stream that is delivered to its end. The generator itself is lazy: each
    [__anext__] runs its body up to the next [yield], and once the body has
    returned it only signals the end. *)

Module Generator.

(** Where the body is suspended: at the head of the loop (not started yet,
    or at the [yield] inside the loop) with the chunks still to come, at the
    [yield] after the loop, or returned. *)
Inductive Frame :=
| InLoop (accumulated_text : string) (rest : list ChatCompletionChunk)
| AtLastYield
| Exhausted.

Fixpoint resume (start_time now : datetime) (accumulated_text : string)
    (rest : list ChatCompletionChunk) : ChatResponse * Frame :=
  match rest with
  | chunk :: rest =>
      match chunk_delta chunk with
      | Some content =>
          let accumulated_text := accumulated_text ++ content in
          ({| content := [TextBlock accumulated_text]; usage := None |},
           InLoop accumulated_text rest)
      | None => resume start_time now accumulated_text rest
      end
  | [] =>
      let usage :=
        {| input_tokens := 0; output_tokens := 0;
           time := total_seconds (now - start_time) |} in
      ({| content := [TextBlock accumulated_text]; usage := Some usage |},
       AtLastYield)
  end.

(** One [__anext__]; [None] stands for [StopAsyncIteration]. *)
Definition anext (start_time now : datetime) (f : Frame)
    : option ChatResponse * Frame :=
  match f with
  | InLoop accumulated_text rest =>
      let '(r, f) := resume start_time now accumulated_text rest in (Some r, f)
  | AtLastYield | Exhausted => (None, Exhausted)
  end.

(** The values of at most [n] successive [__anext__], up to the end. *)
Fixpoint pull (start_time now : datetime) (n : nat) (f : Frame)
    : list ChatResponse * Frame :=
  match n with
  | O => ([], f)
  | S n =>
      match anext start_time now f with
      | (Some r, f) =>
          let '(rs, f) := pull start_time now n f in (r :: rs, f)
      | (None, f) => ([], f)
      end
  end.

End Generator.

(** ** Vocabulary of the statements *)

(** The text of a response that consists of one text segment. *)
Definition text_of (r : ChatResponse) : option string :=
  match content r with
  | [TextBlock t] => Some t
  | _ => None
  end.

Definition proper_prefix (s t : string) : Prop :=
  String.prefix s t = true ∧ s ≠ t.

Definition join (l : list string) : string := foldr String.append "" l.
Global Arguments join : simpl never.

(** The deltas that pass the guard of the loop, in order. *)
Definition deltas (chunks : list ChatCompletionChunk) : list string :=
  omap chunk_delta chunks.

(** [chunk.choices[0].delta.content] as text, empty when there is none. *)
Definition raw_delta (chunk : ChatCompletionChunk) : string :=
  match chunk_choices chunk with
  | c :: _ => default "" (delta_content (delta c))
  | [] => ""
  end.

(** Every value but the last has no usage record. *)
Definition intermediate_without_usage (seq : list ChatResponse) : Prop :=
  ∀ i r, (S i < length seq)%nat → seq !! i = Some r → usage r = None.

(** The chunk's first choice has non-empty delta content. *)
Definition has_text (chunk : ChatCompletionChunk) : bool :=
  match chunk_choices chunk with
  | c :: _ =>
      match delta_content (delta c) with
      | Some s => negb (String.eqb s "")
      | None => false
      end
  | [] => false
  end.

(** The properties of a streamed sequence that the statements speak of. *)

(** Each text is a prefix of the next and no longer than it. *)
Definition prefix_chain (seq : list ChatResponse) : Prop :=
  ∀ i r r', seq !! i = Some r → seq !! S i = Some r' →
    ∃ t t', text_of r = Some t ∧ text_of r' = Some t'
            ∧ String.prefix t t' = true
            ∧ (String.length t ≤ String.length t')%nat.

(** Each text is a proper prefix of the next. *)
Definition strict_prefix_chain (seq : list ChatResponse) : Prop :=
  ∀ i r r', seq !! i = Some r → seq !! S i = Some r' →
    ∃ t t', text_of r = Some t ∧ text_of r' = Some t' ∧ proper_prefix t t'.

(** Each text is a proper prefix of the next, up to the last value, which
    repeats the text of the one before it. *)
Definition strict_prefix_chain_then_repeat (seq : list ChatResponse) : Prop :=
  ∀ i r r', seq !! i = Some r → seq !! S i = Some r' →
    ∃ t t', text_of r = Some t ∧ text_of r' = Some t'
            ∧ ((S (S i) < length seq)%nat → proper_prefix t t')
            ∧ (S (S i) = length seq → t' = t).

Definition final_carries_usage (seq : list ChatResponse) : Prop :=
  ∃ final, last seq = Some final ∧ is_Some (usage final).

(** The text of a completion: the content of its first choice, empty when
    there is none. *)
Definition completion_text (response : ChatCompletion) : string :=
  match choices response with
  | c :: _ => default "" (message_content (message c))
  | [] => ""
  end.

(** The last streamed value and the single response hold the same text
    segment. *)
Definition same_final_text (seq : list ChatResponse) (r : ChatResponse) : Prop :=
  ∃ final t, last seq = Some final ∧ text_of final = Some t ∧ text_of r = Some t.

(** ** A sample client

    It answers by the [stream] entry of the request, and refuses a request
    without one. *)

Definition sample_client (chunks : list ChatCompletionChunk)
    (completion : ChatCompletion) (request : gmap string PyValue) : Outcome :=
  match request !! "stream" with
  | Some (PyBool true) => Returns (AsyncStreamObj chunks)
  | Some (PyBool false) => Returns (ChatCompletionObj completion)
  | _ => Raises {| exc_str := "Connection error." |}
  end.

Definition refusing_client (request : gmap string PyValue) : Outcome :=
  Raises {| exc_str := "Connection error." |}.

Definition text_chunk (s : string) : ChatCompletionChunk :=
  {| chunk_choices := [ {| delta := {| delta_content := Some s |} |} ] |}.

(** A chunk that carries no text: the role announcement and the finish
    marker of a stream look like this. *)
Definition bare_chunk : ChatCompletionChunk :=
  {| chunk_choices := [ {| delta := {| delta_content := None |} |} ] |}.

Definition sample_chunks : list ChatCompletionChunk :=
  [bare_chunk; text_chunk "1+1"; text_chunk "=2"; bare_chunk].

Definition sample_completion : ChatCompletion :=
  {| choices := [ {| message := {| message_content := Some "1+1=2" |} |} ];
     response_usage :=
       Some {| prompt_tokens := Some 12; completion_tokens := Some 5 |} |}.

Definition sample_messages : list PyValue :=
  [PyDict [("role", PyStr "user"); ("content", PyStr "1+1=?")]].

Definition sample_model (stream : bool) : CustomOpenAICompatibleModel :=
  {| model_name := "custom-model"; stream := stream;
     temperature := Qmake 7 10; max_tokens := 2048 |}.

Definition sample_env : Env :=
  {| create := sample_client sample_chunks sample_completion;
     now_at_call := 1000000; now_at_parse := 3500000 |}.

(** A completion whose first choice has the empty string as content, and a
    stream whose chunks carry no text. *)
Definition silent_completion : ChatCompletion :=
  {| choices := [ {| message := {| message_content := Some "" |} |} ];
     response_usage := None |}.

Definition silent_chunks : list ChatCompletionChunk :=
  [bare_chunk; text_chunk ""; bare_chunk].

Definition silent_env : Env :=
  {| create := sample_client silent_chunks silent_completion;
     now_at_call := 1000000; now_at_parse := 3500000 |}.

(** A clock that is set back by an hour while the stream is read. *)
Definition set_back_env : Env :=
  {| create := sample_client sample_chunks sample_completion;
     now_at_call := 7199000000; now_at_parse := 3601000000 |}.

Definition refusing_env : Env :=
  {| create := refusing_client;
     now_at_call := 1000000; now_at_parse := 3500000 |}.

(** ** Building the models

    The constructor of the adapter, the factories of
    [mytests/custom_model_example.py] and the factory and the start-up check
    of [test_custom_model.py]. What they print is left out. *)

(** The Python process a factory runs in: its environment variables, whether
    [import openai] succeeds, the exception that [openai.AsyncClient] raises
    for a key and an address, if it refuses them, and the builtins [float]
    and [int] on strings. *)
Record Host :=
  { environ : gmap string string;
    openai_installed : bool;
    async_client_error : string → string → option PyException;
    py_float : string → PyException + Q;
    py_int : string → PyException + Z }.

Global Instance raising_bind : MBind (sum PyException) :=
  λ A B f m, match m with inl e => inl e | inr a => f a end.

(** The arguments [openai.AsyncClient] is built from. *)
Record AsyncClient := { client_api_key : string; client_base_url : string }.

Definition __init__ (host : Host) (model_name api_key base_url : string)
    (stream : bool) (temperature : Q) (max_tokens : Z)
    : PyException + (CustomOpenAICompatibleModel * AsyncClient) :=
  if openai_installed host then
    match async_client_error host api_key base_url with
    | Some e => inl e
    | None =>
        inr ({| model_name := model_name; stream := stream;
                temperature := temperature; max_tokens := max_tokens |},
             {| client_api_key := api_key; client_base_url := base_url |})
    end
  else inl {| exc_str := "请安装 openai 库: pip install openai" |}.

(** The models of the framework, as the arguments they are built from. *)
Inductive ChatModel :=
| OpenAIChatModel (model_name api_key : string) (stream : bool)
| DashScopeChatModel (model_name api_key : string) (stream : bool)
| OllamaChatModel (model_name host : string) (stream : bool)
| CustomModel (model : CustomOpenAICompatibleModel) (client : AsyncClient).

Inductive Formatter :=
| OpenAIChatFormatter
| DashScopeChatFormatter
| OllamaChatFormatter.

Definition create_openai_model (host : Host)
    : PyException + (ChatModel * Formatter) :=
  match truthy_str (environ host !! "OPENAI_API_KEY") with
  | Some api_key => inr (OpenAIChatModel "gpt-4" api_key true, OpenAIChatFormatter)
  | None => inl {| exc_str := "请设置 OPENAI_API_KEY 环境变量" |}
  end.

Definition create_dashscope_model (host : Host)
    : PyException + (ChatModel * Formatter) :=
  match truthy_str (environ host !! "DASHSCOPE_API_KEY") with
  | Some api_key =>
      inr (DashScopeChatModel "qwen-max" api_key true, DashScopeChatFormatter)
  | None => inl {| exc_str := "请设置 DASHSCOPE_API_KEY 环境变量" |}
  end.

Definition create_ollama_model (host : Host)
    : PyException + (ChatModel * Formatter) :=
  inr (OllamaChatModel
         (default "llama3:latest" (environ host !! "OLLAMA_MODEL_NAME"))
         (default "http://localhost:11434" (environ host !! "OLLAMA_HOST"))
         true,
       OllamaChatFormatter).

Definition create_custom_openai_compatible_model (host : Host)
    : PyException + (ChatModel * Formatter) :=
  let model_name := default "custom-model" (environ host !! "CUSTOM_MODEL_NAME") in
  let api_key := default "dummy-key" (environ host !! "CUSTOM_OPENAI_API_KEY") in
  let base_url :=
    default "http://localhost:8000/v1"
      (environ host !! "CUSTOM_OPENAI_BASE_URL") in
  temperature ←
    py_float host (default "0.7" (environ host !! "CUSTOM_MODEL_TEMPERATURE"));
  max_tokens ←
    py_int host (default "2048" (environ host !! "CUSTOM_MODEL_MAX_TOKENS"));
  '(model, client) ←
    __init__ host model_name api_key base_url true temperature max_tokens;
  inr (CustomModel model client, OpenAIChatFormatter).

Definition create_vllm_model (host : Host)
    : PyException + (ChatModel * Formatter) :=
  '(model, client) ←
    __init__ host "Qwen/Qwen2.5-7B-Instruct" "EMPTY" "http://localhost:8000/v1"
      true (Qmake 7 10) 2048;
  inr (CustomModel model client, OpenAIChatFormatter).

(** [model_map] of [interactive_custom_model], and the factory that the
    answer of the user, stripped of surrounding white space, selects: an
    answer that is no key of the map counts as ["1"]. [None] would be a
    [KeyError]. *)
Definition model_map
    : gmap string (Host → PyException + (ChatModel * Formatter)) :=
  <["1" := create_dashscope_model]>
  (<["2" := create_openai_model]>
  (<["3" := create_ollama_model]>
  (<["4" := create_custom_openai_compatible_model]>
  (<["5" := create_vllm_model]> ∅)))).

Definition selected_factory (choice : string)
    : option (Host → PyException + (ChatModel * Formatter)) :=
  let choice :=
    match model_map !! choice with
    | Some _ => choice
    | None => "1"
    end in
  model_map !! choice.

(** [create_custom_model] of [test_custom_model.py]. *)
Definition create_custom_model (host : Host)
    : PyException + (ChatModel * Formatter) :=
  match truthy_str (environ host !! "CUSTOM_OPENAI_API_KEY") with
  | None => inl {| exc_str := "请在 .env 文件中设置 CUSTOM_OPENAI_API_KEY" |}
  | Some api_key =>
  match truthy_str (environ host !! "CUSTOM_OPENAI_BASE_URL") with
  | None => inl {| exc_str := "请在 .env 文件中设置 CUSTOM_OPENAI_BASE_URL" |}
  | Some base_url =>
  match truthy_str (environ host !! "CUSTOM_MODEL_NAME") with
  | None => inl {| exc_str := "请在 .env 文件中设置 CUSTOM_MODEL_NAME" |}
  | Some model_name =>
      temperature ←
        py_float host
          (default "0.7" (environ host !! "CUSTOM_MODEL_TEMPERATURE"));
      max_tokens ←
        py_int host
          (default "2048" (environ host !! "CUSTOM_MODEL_MAX_TOKENS"));
      '(model, client) ←
        __init__ host model_name api_key base_url false temperature max_tokens;
      inr (CustomModel model client, OpenAIChatFormatter)
  end end end.

(** The start-up check of [test_custom_model.py]. *)
Definition required_vars : list string :=
  ["CUSTOM_OPENAI_API_KEY"; "CUSTOM_OPENAI_BASE_URL"; "CUSTOM_MODEL_NAME"].

Definition missing_vars (host : Host) : list string :=
  List.filter
    (λ var, match truthy_str (environ host !! var) with
            | Some _ => false
            | None => true
            end)
    required_vars.

(** ** More vocabulary *)

(** The five entries every request starts from. *)
Definition fixed_entries (self : CustomOpenAICompatibleModel)
    (messages : list PyValue) : gmap string PyValue :=
  <["model" := PyStr (model_name self)]>
  (<["messages" := PyList messages]>
  (<["stream" := PyBool (stream self)]>
  (<["temperature" := PyFloat (temperature self)]>
  (<["max_tokens" := PyInt (max_tokens self)]> ∅)))).

(** The client answers a request by its [stream] entry: never a completion
    when it is [True], never a stream when it is [False]. *)
Definition honours_stream_entry (env : Env) : Prop :=
  ∀ request,
    (request !! "stream" = Some (PyBool true) →
     ∀ c, create env request ≠ Returns (ChatCompletionObj c))
    ∧ (request !! "stream" = Some (PyBool false) →
       (∀ chunks, create env request ≠ Returns (AsyncStreamObj chunks))
       ∧ (∀ chunks e,
            create env request ≠ Returns (BrokenStreamObj chunks e))).

(** Python binds a keyword named like a parameter of [__call__] to that
    parameter, and refuses the call when the parameter has a value already:
    [**kwargs] never holds these keys. *)
Definition bound_by_python (kwargs : gmap string PyValue) : Prop :=
  kwargs !! "self" = None ∧ kwargs !! "messages" = None
  ∧ kwargs !! "tools" = None ∧ kwargs !! "tool_choice" = None.


(** The chunk without the choices after the first. *)
Definition first_choice_only (chunk : ChatCompletionChunk)
    : ChatCompletionChunk :=
  {| chunk_choices := take 1 (chunk_choices chunk) |}.


(** ** Sample hosts *)

Definition sample_float (s : string) : PyException + Q :=
  if String.eqb s "0.7" then inr (Qmake 7 10)
  else if String.eqb s "0.2" then inr (Qmake 1 5)
  else inl {| exc_str := "could not convert string to float" |}.

Definition sample_int (s : string) : PyException + Z :=
  if String.eqb s "2048" then inr 2048
  else if String.eqb s "512" then inr 512
  else inl {| exc_str := "invalid literal for int() with base 10" |}.

(** A client constructor that refuses the empty key. *)
Definition sample_client_error (api_key base_url : string)
    : option PyException :=
  if String.eqb api_key "" then
    Some {| exc_str := "The api_key client option must be set" |}
  else None.

(** A host with the three variables of the custom model set. *)
Definition sample_host : Host :=
  {| environ :=
       <["CUSTOM_OPENAI_API_KEY" := "sk-sample"]>
       (<["CUSTOM_OPENAI_BASE_URL" := "http://localhost:8000/v1"]>
       (<["CUSTOM_MODEL_NAME" := "Qwen/Qwen2.5-7B-Instruct"]>
       (<["CUSTOM_MODEL_TEMPERATURE" := "0.2"]> ∅)));
     openai_installed := true;
     async_client_error := sample_client_error;
     py_float := sample_float;
     py_int := sample_int |}.

(** A host where the address is set to the empty string and the name of the
    model is not set. *)
Definition incomplete_host : Host :=
  {| environ :=
       <["CUSTOM_OPENAI_API_KEY" := "sk-sample"]>
       (<["CUSTOM_OPENAI_BASE_URL" := ""]> ∅);
     openai_installed := true;
     async_client_error := sample_client_error;
     py_float := sample_float;
     py_int := sample_int |}.

Definition stream_keyword (b : bool) : gmap string PyValue :=
  <["stream" := PyBool b]> ∅.

(** A host where the key is set to the empty string. *)
Definition keyless_host : Host :=
  {| environ := <["CUSTOM_OPENAI_API_KEY" := ""]> ∅;
     openai_installed := true;
     async_client_error := sample_client_error;
     py_float := sample_float;
     py_int := sample_int |}.

(** A client whose stream delivers one chunk and then loses the
    connection. *)
Definition broken_env : Env :=
  {| create := λ _, Returns (BrokenStreamObj [text_chunk "1+1"]
                               {| exc_str := "Connection error." |});
     now_at_call := 1000000; now_at_parse := 3500000 |}.

(** ** Strings *)

Lemma append_nil_r (s : string) : s ++ "" = s.
Proof.
  induction s as [|a s IH]; [done|].
  unfold String.append; fold String.append. by rewrite IH.
Qed.

Lemma append_assoc (a b c : string) : (a ++ b) ++ c = a ++ (b ++ c).
Proof.
  induction a as [|x a IH]; [done|].
  unfold String.append; fold String.append. by rewrite IH.
Qed.

Lemma length_append (a b : string) :
  String.length (a ++ b) = (String.length a + String.length b)%nat.
Proof.
  induction a as [|x a IH]; [done|].
  unfold String.append; fold String.append. simpl. by rewrite IH.
Qed.

Lemma prefix_append (a b : string) : String.prefix a (a ++ b) = true.
Proof.
  induction a as [|x a IH]; [by destruct b|].
  unfold String.append; fold String.append. simpl.
  destruct (Ascii.ascii_dec x x); [done|congruence].
Qed.

Lemma prefix_refl (a : string) : String.prefix a a = true.
Proof. rewrite <- (append_nil_r a) at 2. apply prefix_append. Qed.

Lemma proper_prefix_append (a b : string) : b ≠ "" → proper_prefix a (a ++ b).
Proof.
  intros Hb. split; [apply prefix_append|].
  intros Heq. apply Hb. symmetry.
  apply (inj (String.append a)). by rewrite append_nil_r.
Qed.

Lemma truthy_str_Some (o : option string) (s : string) :
  truthy_str o = Some s ↔ o = Some s ∧ s ≠ "".
Proof.
  destruct o as [x|]; simpl; [|by split; [|intros []]].
  destruct (String.eqb_spec x "") as [->|Hx]; split; try done.
  - by intros [[= <-] ?].
  - by intros [= <-].
  - by intros [? _].
Qed.

Lemma truthy_str_None (o : option string) :
  truthy_str o = None ↔ o = None ∨ o = Some "".
Proof.
  destruct o as [x|]; simpl; [|by split; [left|]].
  destruct (String.eqb_spec x "") as [->|Hx]; split; try done.
  - by right.
  - by intros [|[= ->]].
Qed.

(** ** The sequence a stream yields *)

Section stream_from.
Variables start_time now : datetime.

Local Abbreviation final_usage :=
  {| input_tokens := 0; output_tokens := 0;
     time := total_seconds (now - start_time) |}.

Lemma deltas_cons (chunk : ChatCompletionChunk) (rest : list ChatCompletionChunk) :
  deltas (chunk :: rest) =
  match chunk_delta chunk with
  | Some d => d :: deltas rest
  | None => deltas rest
  end.
Proof. unfold deltas. simpl. by destruct (chunk_delta chunk). Qed.

Lemma deltas_nonempty (chunks : list ChatCompletionChunk) (d : string) :
  d ∈ deltas chunks → d ≠ "".
Proof.
  unfold deltas. rewrite list_elem_of_omap. intros (chunk & _ & Hd).
  unfold chunk_delta in Hd. destruct (chunk_choices chunk); [done|].
  by apply truthy_str_Some in Hd as [_ ?].
Qed.

Lemma join_nil : join [] = "".
Proof. reflexivity. Qed.

Lemma join_cons (d : string) (l : list string) : join (d :: l) = d ++ join l.
Proof. reflexivity. Qed.

Lemma join_snoc (l : list string) (d : string) : join (l ++ [d]) = join l ++ d.
Proof.
  induction l as [|x l IH].
  - by rewrite app_nil_l, join_cons, append_nil_r.
  - by rewrite <- app_comm_cons, !join_cons, IH, append_assoc.
Qed.

Lemma join_raw_delta (chunks : list ChatCompletionChunk) :
  join (raw_delta <$> chunks) = join (deltas chunks).
Proof.
  induction chunks as [|chunk rest IH]; [done|].
  rewrite fmap_cons, join_cons, IH, deltas_cons.
  unfold raw_delta, chunk_delta.
  destruct (chunk_choices chunk) as [|c cs]; [done|].
  destruct (delta_content (delta c)) as [s|]; simpl; [|done].
  by destruct (String.eqb_spec s "") as [->|].
Qed.

Lemma stream_from_length (acc : string) (chunks : list ChatCompletionChunk) :
  length (stream_from start_time now acc chunks) = S (length (deltas chunks)).
Proof.
  revert acc. induction chunks as [|chunk rest IH]; intros acc; [done|].
  rewrite deltas_cons. simpl.
  destruct (chunk_delta chunk); simpl; by rewrite IH.
Qed.

(** The value at position [k] holds the text accumulated over the first
    [k + 1] deltas (all of them, at the last position). *)
Lemma stream_from_content (chunks : list ChatCompletionChunk) (acc : string)
    (k : nat) (r : ChatResponse) :
  stream_from start_time now acc chunks !! k = Some r →
  content r = [TextBlock (acc ++ join (take (S k) (deltas chunks)))].
Proof.
  revert acc k. induction chunks as [|chunk rest IH]; intros acc k Hk.
  - destruct k; simplify_eq/=. by rewrite join_nil, append_nil_r.
  - rewrite deltas_cons. simpl in Hk.
    destruct (chunk_delta chunk) as [d|]; [|by apply IH].
    destruct k as [|k]; simplify_eq/=.
    + by rewrite take_0, join_cons, join_nil, append_nil_r.
    + apply IH in Hk. by rewrite join_cons, Hk, append_assoc.
Qed.

Lemma stream_from_usage (chunks : list ChatCompletionChunk) (acc : string)
    (k : nat) (r : ChatResponse) :
  stream_from start_time now acc chunks !! k = Some r →
  usage r = if decide (k = length (deltas chunks)) then Some final_usage
            else None.
Proof.
  revert acc k. induction chunks as [|chunk rest IH]; intros acc k Hk.
  - by destruct k; simplify_eq/=.
  - rewrite deltas_cons. simpl in Hk.
    destruct (chunk_delta chunk) as [d|]; [|by eapply IH].
    destruct k as [|k]; simplify_eq/=; [done|].
    apply IH in Hk. rewrite Hk. by repeat case_decide; simplify_eq.
Qed.

Lemma stream_from_last (chunks : list ChatCompletionChunk) (acc : string) :
  last (stream_from start_time now acc chunks) =
  Some {| content := [TextBlock (acc ++ join (deltas chunks))];
          usage := Some final_usage |}.
Proof.
  revert acc. induction chunks as [|chunk rest IH]; intros acc.
  - simpl. by rewrite join_nil, append_nil_r.
  - rewrite deltas_cons. simpl.
    destruct (chunk_delta chunk) as [d|]; [|by apply IH].
    rewrite last_cons, IH. by rewrite join_cons, append_assoc.
Qed.

Lemma stream_from_text (chunks : list ChatCompletionChunk) (acc : string)
    (k : nat) (r : ChatResponse) :
  stream_from start_time now acc chunks !! k = Some r →
  text_of r = Some (acc ++ join (take (S k) (deltas chunks))).
Proof.
  intros Hk. unfold text_of. by rewrite (stream_from_content _ _ _ _ Hk).
Qed.

(** Two neighbours: the later text is the earlier one, extended by the next
    delta when there is one. *)
Lemma stream_from_step (chunks : list ChatCompletionChunk) (acc : string)
    (k : nat) (r r' : ChatResponse) :
  stream_from start_time now acc chunks !! k = Some r →
  stream_from start_time now acc chunks !! S k = Some r' →
  ∃ t, text_of r = Some t ∧
    match deltas chunks !! S k with
    | Some d => d ≠ "" ∧ text_of r' = Some (t ++ d)
    | None => S (S k) = length (stream_from start_time now acc chunks)
              ∧ text_of r' = Some t
    end.
Proof.
  intros Hk Hk'. apply stream_from_text in Hk as Ht.
  apply stream_from_text in Hk' as Ht'.
  apply lookup_lt_Some in Hk'. rewrite stream_from_length in Hk'.
  eexists; split; [done|].
  destruct (deltas chunks !! S k) as [d|] eqn:Hd.
  - split; [eapply deltas_nonempty, list_elem_of_lookup_2, Hd|].
    rewrite Ht'. by rewrite (take_S_r _ _ _ Hd), join_snoc, append_assoc.
  - apply lookup_ge_None in Hd.
    rewrite stream_from_length. split; [lia|].
    rewrite Ht'. by rewrite !take_ge by lia.
Qed.

End stream_from.

(** ** The generator: every pull, and the end *)

Lemma pull_skip (start_time now : datetime) (n : nat) (acc : string)
    (chunk : ChatCompletionChunk) (rest : list ChatCompletionChunk) :
  chunk_delta chunk = None →
  Generator.pull start_time now n (Generator.InLoop acc (chunk :: rest))
  = match n with
    | O => ([], Generator.InLoop acc (chunk :: rest))
    | S _ => Generator.pull start_time now n (Generator.InLoop acc rest)
    end.
Proof. intros Hd. destruct n; [done|]. simpl. by rewrite Hd. Qed.

(** Pulling often enough collects the whole sequence and leaves the
    generator exhausted: two more pulls than there are chunks suffice. *)
Lemma pull_all (start_time now : datetime) (rest : list ChatCompletionChunk)
    (acc : string) (n : nat) :
  (length rest + 2 ≤ n)%nat →
  Generator.pull start_time now n (Generator.InLoop acc rest)
  = (stream_from start_time now acc rest, Generator.Exhausted).
Proof.
  revert acc n. induction rest as [|chunk rest IH]; intros acc n Hn.
  - destruct n as [|[|n]]; simpl in Hn; [lia..|done].
  - destruct (chunk_delta chunk) as [d|] eqn:Hd.
    + destruct n as [|n]; simpl in Hn; [lia|].
      simpl. rewrite Hd. simpl. rewrite IH by lia. done.
    + rewrite pull_skip by done. simpl in Hn.
      destruct n as [|n]; [lia|]. simpl stream_from. rewrite Hd.
      apply IH. lia.
Qed.

(** An exhausted generator yields nothing more. *)
Lemma pull_exhausted (start_time now : datetime) (n : nat) :
  Generator.pull start_time now n Generator.Exhausted
  = ([], Generator.Exhausted).
Proof. by destruct n. Qed.

(** What [consume] collects is what the generator hands out pull by pull. *)
Lemma consume_pull (start_time now : datetime)
    (chunks : list ChatCompletionChunk) :
  consume now
    {| gen_start_time := start_time; gen_response := AsyncStreamObj chunks |}
  = ((Generator.pull start_time now (length chunks + 2)
        (Generator.InLoop "" chunks)).1, None).
Proof. unfold consume. simpl. by rewrite pull_all. Qed.

(** ** Sample runs *)

Example sample_request_stream :
  request_kwargs (sample_model true) sample_messages None None ∅ !! "stream"
  = Some (PyBool true).
Proof. reflexivity. Qed.

Example sample_streaming_call :
  consume 3500000
    {| gen_start_time := 1000000; gen_response := AsyncStreamObj sample_chunks |}
  = ([ {| content := [TextBlock "1+1"]; usage := None |};
       {| content := [TextBlock "1+1=2"]; usage := None |};
       {| content := [TextBlock "1+1=2"];
          usage := Some {| input_tokens := 0; output_tokens := 0;
                           time := Qmake 2500000 1000000 |} |} ], None).
Proof. reflexivity. Qed.

Example sample_call_stream :
  __call__ (sample_model true) sample_env sample_messages None None ∅
  = Stream {| gen_start_time := 1000000;
              gen_response := AsyncStreamObj sample_chunks |}.
Proof. reflexivity. Qed.

Example sample_call_single :
  __call__ (sample_model false) sample_env sample_messages None None ∅
  = Single {| content := [TextBlock "1+1=2"];
              usage := Some {| input_tokens := 12; output_tokens := 5;
                               time := Qmake 2500000 1000000 |} |}.
Proof. reflexivity. Qed.

(** ** The call boundary *)

Section call.
Variables (self : CustomOpenAICompatibleModel) (env : Env).
Variables (messages : list PyValue) (tools : option (list PyValue)).
Variables (tool_choice : option string) (kwargs : gmap string PyValue).


Lemma call_completion (response : ChatCompletion) :
  stream self = false →
  create env (request_kwargs self messages tools tool_choice kwargs)
    = Returns (ChatCompletionObj response) →
  __call__ self env messages tools tool_choice kwargs
    = Single (_parse_response (now_at_call env) (now_at_parse env) response).
Proof. intros Hs Hc. unfold __call__. by rewrite Hc, Hs. Qed.

Lemma call_stream (chunks : list ChatCompletionChunk) :
  stream self = true →
  create env (request_kwargs self messages tools tool_choice kwargs)
    = Returns (AsyncStreamObj chunks) →
  yields self env messages tools tool_choice kwargs
    (_parse_stream_response (now_at_call env) (now_at_parse env) chunks).
Proof.
  intros Hs Hc. unfold yields, __call__. rewrite Hc, Hs.
  by eexists.
Qed.

(** Whatever the client does, a call configured non-streaming evaluates to
    one response. *)
Lemma call_single_when_not_streaming :
  stream self = false →
  ∃ r, __call__ self env messages tools tool_choice kwargs = Single r.
Proof.
  intros Hs. unfold __call__. rewrite Hs.
  destruct (create env _) as [e|[c|chunks|chunks e]]; by eexists.
Qed.


(** C6. For a non-empty message list, a call configured non-streaming
    produces one response: the result is a single value, not a generator. *)
Theorem nonstreaming_call_returns_one_response :
  messages ≠ [] →
  stream self = false →
  ∃ r, __call__ self env messages tools tool_choice kwargs = Single r.
Proof. intros _. apply call_single_when_not_streaming. Qed.

(** C7. In a non-streaming call, when the first choice of the completion
    has text, the response holds one text segment with that text; when the
    completion reports usage with its two counts, the usage record carries
    the prompt count as input tokens and the completion count as output
    tokens. *)
Theorem nonstreaming_maps_first_choice_and_usage
    (response : ChatCompletion) (c : Choice) (rest : list Choice)
    (text : string) :
  stream self = false →
  create env (request_kwargs self messages tools tool_choice kwargs)
    = Returns (ChatCompletionObj response) →
  choices response = c :: rest →
  message_content (message c) = Some text →
  text ≠ "" →
  ∃ r, __call__ self env messages tools tool_choice kwargs = Single r
       ∧ content r = [TextBlock text]
       ∧ ∀ u p q,
           response_usage response = Some u →
           prompt_tokens u = Some p →
           completion_tokens u = Some q →
           ∃ cu, usage r = Some cu
                 ∧ input_tokens cu = p ∧ output_tokens cu = q.
Proof.
  intros Hs Hc Hch Hm Ht. rewrite (call_completion _ Hs Hc).
  eexists; split; [done|]. unfold _parse_response, first_choice_content.
  rewrite Hch, Hm. simpl.
  destruct (String.eqb_spec text "") as [|_]; [done|]. split; [done|].
  intros u p q -> Hp Hq. eexists; split; [done|]. simpl.
  rewrite Hp, Hq. simpl. split; by case_match; lia.
Qed.

(** C10. In a non-streaming call, when the completion has no choices, or
    its first choice has no content or the empty string as content, the
    call returns one response whose content list is empty. *)
Theorem nonstreaming_without_text_has_no_segment (response : ChatCompletion) :
  stream self = false →
  create env (request_kwargs self messages tools tool_choice kwargs)
    = Returns (ChatCompletionObj response) →
  (choices response = []
   ∨ ∃ c rest, choices response = c :: rest
       ∧ (message_content (message c) = None
          ∨ message_content (message c) = Some "")) →
  ∃ r, __call__ self env messages tools tool_choice kwargs = Single r
       ∧ content r = [].
Proof.
  intros Hs Hc Hno. rewrite (call_completion _ Hs Hc).
  eexists; split; [done|]. unfold _parse_response, first_choice_content.
  destruct Hno as [->|(c & rest & -> & [->| ->])]; done.
Qed.

End call.

(** ** Streaming calls *)

Lemma has_text_chunk_delta (chunk : ChatCompletionChunk) :
  has_text chunk = bool_decide (is_Some (chunk_delta chunk)).
Proof.
  unfold has_text, chunk_delta.
  destruct (chunk_choices chunk) as [|c cs]; [done|].
  destruct (delta_content (delta c)) as [s|]; simpl; [|done].
  by destruct (String.eqb s "").
Qed.

Lemma length_deltas (chunks : list ChatCompletionChunk) :
  length (deltas chunks) = length (List.filter has_text chunks).
Proof.
  induction chunks as [|chunk rest IH]; [done|].
  rewrite deltas_cons. simpl. rewrite has_text_chunk_delta.
  destruct (chunk_delta chunk); simpl; by rewrite IH.
Qed.

Lemma chunk_delta_raw (chunk : ChatCompletionChunk) (d : string) :
  chunk_delta chunk = Some d → raw_delta chunk = d.
Proof.
  unfold chunk_delta, raw_delta.
  destruct (chunk_choices chunk) as [|c cs]; [done|].
  intros Hd. apply truthy_str_Some in Hd as [Hd _]. by rewrite Hd.
Qed.

Lemma deltas_has_text (chunks : list ChatCompletionChunk) :
  deltas chunks = raw_delta <$> List.filter has_text chunks.
Proof.
  induction chunks as [|chunk rest IH]; [done|].
  rewrite deltas_cons. simpl. rewrite has_text_chunk_delta, IH.
  destruct (chunk_delta chunk) as [d|] eqn:Hd; simpl; [|done].
  by rewrite (chunk_delta_raw _ _ Hd).
Qed.

Lemma deltas_nil (chunks : list ChatCompletionChunk) :
  (∀ chunk, chunk ∈ chunks → has_text chunk = false) → deltas chunks = [].
Proof.
  intros Hno. induction chunks as [|chunk rest IH]; [done|].
  rewrite deltas_cons. specialize (Hno chunk (list_elem_of_here _ _)) as Hc.
  rewrite has_text_chunk_delta in Hc.
  destruct (chunk_delta chunk); [done|].
  apply IH. intros c Hin. apply Hno. by right.
Qed.

Section streaming_call.
Variables (self : CustomOpenAICompatibleModel) (env : Env).
Variables (messages : list PyValue) (tools : option (list PyValue)).
Variables (tool_choice : option string) (kwargs : gmap string PyValue).
Variable chunks : list ChatCompletionChunk.

Hypothesis configured_streaming : stream self = true.
Hypothesis transport_streams :
  create env (request_kwargs self messages tools tool_choice kwargs)
  = Returns (AsyncStreamObj chunks).

Local Abbreviation streamed :=
  (_parse_stream_response (now_at_call env) (now_at_parse env) chunks).

Lemma streaming_call_yields :
  yields self env messages tools tool_choice kwargs streamed.
Proof. by apply call_stream. Qed.

(** C4. The texts of a streamed sequence never get shorter, and each is a
    prefix of the next. *)
Theorem streaming_texts_grow_by_prefix :
  ∃ seq, yields self env messages tools tool_choice kwargs seq
         ∧ prefix_chain seq.
Proof.
  exists streamed. split; [apply streaming_call_yields|].
  intros i r r' Hi Hi'.
  destruct (stream_from_step _ _ _ _ _ _ _ Hi Hi') as (t & Ht & Hnext).
  destruct (deltas chunks !! S i) as [d|].
  - destruct Hnext as [_ Ht']. exists t, (t ++ d).
    rewrite length_append. repeat split; [done..|apply prefix_append|lia].
  - destruct Hnext as [_ Ht']. exists t, t.
    repeat split; [done..|apply prefix_refl|lia].
Qed.

(** C2, as the code has it. Each value's text is a proper prefix-extension
    of the text before it, except for the last value, which repeats the text
    of the value before it; the last value carries the usage record. *)
Theorem streaming_texts_extend_strictly_until_final :
  ∃ seq, yields self env messages tools tool_choice kwargs seq
         ∧ strict_prefix_chain_then_repeat seq ∧ final_carries_usage seq.
Proof.
  exists streamed. split; [apply streaming_call_yields|].
  split.
  - intros i r r' Hi Hi'.
    destruct (stream_from_step _ _ _ _ _ _ _ Hi Hi') as (t & Ht & Hnext).
    unfold _parse_stream_response. rewrite stream_from_length.
    destruct (deltas chunks !! S i) as [d|] eqn:Hd.
    + destruct Hnext as [Hne Ht']. exists t, (t ++ d).
      apply lookup_lt_Some in Hd.
      do 2 (split; [done|]). split; [|lia].
      intros _. by apply proper_prefix_append.
    + destruct Hnext as [Hlen Ht']. rewrite stream_from_length in Hlen.
      exists t, t. do 2 (split; [done|]). split; [lia|done].
  - eexists. split; [apply stream_from_last|]. by eexists.
Qed.

(** C3, as the code has it. The sequence is finite and holds one value for
    each received chunk whose first choice has non-empty delta content, in
    the order received, and one more value at the end; the text of the value
    at position [k] is the concatenation of the first [k + 1] such deltas,
    all of them at the last position: the text accumulated so far, not the
    delta alone. *)
Theorem streaming_one_value_per_text_chunk_and_a_final_one :
  ∃ seq, yields self env messages tools tool_choice kwargs seq
         ∧ length seq = S (length (List.filter has_text chunks))
         ∧ ∀ k r, seq !! k = Some r →
             text_of r
             = Some (join (take (S k)
                             (raw_delta <$> List.filter has_text chunks))).
Proof.
  exists streamed. split; [apply streaming_call_yields|].
  unfold _parse_stream_response.
  rewrite stream_from_length, length_deltas. repeat split.
  intros k r Hk. rewrite <- deltas_has_text. by apply stream_from_text in Hk.
Qed.

(** C8, as the code has it. The last value carries a usage record whose
    input and output token counts are zero and whose time is the reading of
    the clock once the stream is exhausted minus the reading taken when the
    call began, in seconds; it is non-negative exactly when the clock has not
    gone back in between. Every value before the last has no usage record. *)
Theorem streaming_usage_only_on_final :
  ∃ seq final u,
    yields self env messages tools tool_choice kwargs seq
    ∧ last seq = Some final ∧ usage final = Some u
    ∧ input_tokens u = 0 ∧ output_tokens u = 0
    ∧ time u = total_seconds (now_at_parse env - now_at_call env)
    ∧ ((0 <= time u)%Q ↔ (now_at_call env ≤ now_at_parse env)%Z)
    ∧ intermediate_without_usage seq.
Proof.
  eexists streamed, _, _. split; [apply streaming_call_yields|].
  split; [apply stream_from_last|]. simpl. do 4 (split; [done|]). split.
  - unfold total_seconds, Qle. simpl. lia.
  - intros i r Hi Hr. unfold _parse_stream_response in Hi, Hr.
    rewrite stream_from_length in Hi.
    rewrite (stream_from_usage _ _ _ _ _ _ Hr). case_decide; [lia|done].
Qed.

(** C9. A streamed sequence is never empty: its length is one plus the
    number of chunks whose first choice has non-empty delta content, and
    when no chunk has any, it is the single value with the empty text and a
    usage record. *)
Theorem streaming_sequence_never_empty :
  ∃ seq, yields self env messages tools tool_choice kwargs seq
         ∧ seq ≠ []
         ∧ length seq = (1 + length (List.filter has_text chunks))%nat
         ∧ ((∀ chunk, chunk ∈ chunks → has_text chunk = false) →
            ∃ u, seq = [ {| content := [TextBlock ""]; usage := Some u |} ]).
Proof.
  exists streamed. split; [apply streaming_call_yields|].
  assert (length streamed = S (length (List.filter has_text chunks))) as Hlen.
  { unfold _parse_stream_response. by rewrite stream_from_length, length_deltas. }
  split; [|split; [done|]].
  - intros Hnil. by rewrite Hnil in Hlen.
  - intros Hno. apply deltas_nil in Hno.
    pose proof (stream_from_length (now_at_call env) (now_at_parse env) ""
                  chunks) as Hone.
    pose proof (stream_from_last (now_at_call env) (now_at_parse env) chunks "")
      as Hlast.
    rewrite Hno in Hone, Hlast.
    unfold _parse_stream_response.
    destruct (stream_from _ _ "" chunks) as [|r [|r' l]]; simplify_eq/=.
    by eexists.
Qed.

End streaming_call.

(** ** Streaming against non-streaming *)

Lemma first_choice_content_text (response : ChatCompletion) :
  completion_text response ≠ "" →
  first_choice_content response = Some (completion_text response).
Proof.
  unfold completion_text, first_choice_content.
  destruct (choices response) as [|c cs]; [done|].
  destruct (message_content (message c)) as [s|]; simpl; [|done].
  by destruct (String.eqb_spec s "").
Qed.

Lemma first_choice_content_empty (response : ChatCompletion) :
  completion_text response = "" → first_choice_content response = None.
Proof.
  unfold completion_text, first_choice_content.
  destruct (choices response) as [|c cs]; [done|].
  destruct (message_content (message c)) as [s|]; simpl; [|done].
  by intros ->.
Qed.

(** C5, as the code has it. When the deltas of the stream concatenate to
    the text of the completion, the last streamed value holds that text as
    its one text segment. When the text is not empty, the non-streaming
    response holds it as its one text segment too, so that the two texts are
    equal; when it is empty, the non-streaming response has no segment at
    all. In the streamed sequence the last value has a usage record and no
    value before it has one. *)
Theorem streaming_ends_on_nonstreaming_text
    (self_s self_n : CustomOpenAICompatibleModel) (env_s env_n : Env)
    (messages : list PyValue) (tools : option (list PyValue))
    (tool_choice : option string) (kwargs : gmap string PyValue)
    (chunks : list ChatCompletionChunk) (response : ChatCompletion) :
  stream self_s = true →
  stream self_n = false →
  create env_s (request_kwargs self_s messages tools tool_choice kwargs)
    = Returns (AsyncStreamObj chunks) →
  create env_n (request_kwargs self_n messages tools tool_choice kwargs)
    = Returns (ChatCompletionObj response) →
  join (raw_delta <$> chunks) = completion_text response →
  ∃ seq final r,
    yields self_s env_s messages tools tool_choice kwargs seq
    ∧ last seq = Some final
    ∧ __call__ self_n env_n messages tools tool_choice kwargs = Single r
    ∧ text_of final = Some (completion_text response)
    ∧ (completion_text response ≠ "" →
       text_of r = Some (completion_text response) ∧ same_final_text seq r)
    ∧ (completion_text response = "" → content r = [])
    ∧ is_Some (usage final)
    ∧ intermediate_without_usage seq.
Proof.
  intros Hs Hn Hcs Hcn Hsame.
  eexists _, _, _. split; [by apply (call_stream _ _ _ _ _ _ chunks)|].
  split; [apply stream_from_last|].
  split; [by apply call_completion|].
  assert (text_of {| content := [TextBlock ("" ++ join (deltas chunks))];
                     usage := Some {| input_tokens := 0; output_tokens := 0;
                       time := total_seconds
                                 (now_at_parse env_s - now_at_call env_s) |} |}
          = Some (completion_text response)) as Hfinal.
  { unfold text_of. simpl. by rewrite <- Hsame, join_raw_delta. }
  split; [exact Hfinal|]. split; [|split; [|split]].
  - intros Htext.
    assert (text_of (_parse_response (now_at_call env_n) (now_at_parse env_n)
                       response) = Some (completion_text response)) as Hr.
    { unfold text_of, _parse_response.
      by rewrite (first_choice_content_text _ Htext). }
    split; [exact Hr|].
    eexists _, _. split; [apply stream_from_last|]. by split.
  - intros Hempty. unfold _parse_response. simpl.
    by rewrite (first_choice_content_empty _ Hempty).
  - by eexists.
  - intros i x Hi Hx. unfold _parse_stream_response in Hi, Hx.
    rewrite stream_from_length in Hi.
    rewrite (stream_from_usage _ _ _ _ _ _ Hx). case_decide; [lia|done].
Qed.

(** ** The statements on sample calls *)

(** A call yields at most one sequence. *)
Lemma yields_functional (self : CustomOpenAICompatibleModel) (env : Env)
    (messages : list PyValue) (tools : option (list PyValue))
    (tool_choice : option string) (kwargs : gmap string PyValue)
    (seq seq' : list ChatResponse) :
  yields self env messages tools tool_choice kwargs seq →
  yields self env messages tools tool_choice kwargs seq' →
  seq = seq'.
Proof. intros (g & Hg & Hseq) (g' & Hg' & Hseq'). congruence. Qed.


Lemma nonstreaming_call_returns_one_response_sample :
  sample_messages ≠ [] ∧ stream (sample_model false) = false
  ∧ ∃ r, __call__ (sample_model false) sample_env sample_messages None None ∅
         = Single r.
Proof.
  assert (sample_messages ≠ []) as Hne by discriminate.
  split; [exact Hne|]. split; [reflexivity|].
  apply (nonstreaming_call_returns_one_response (sample_model false) sample_env
           sample_messages None None ∅ Hne).
  reflexivity.
Defined.

Lemma nonstreaming_maps_first_choice_and_usage_sample :
  ∃ r, __call__ (sample_model false) sample_env sample_messages None None ∅
       = Single r
       ∧ content r = [TextBlock "1+1=2"]
       ∧ ∀ u p q,
           response_usage sample_completion = Some u →
           prompt_tokens u = Some p →
           completion_tokens u = Some q →
           ∃ cu, usage r = Some cu
                 ∧ input_tokens cu = p ∧ output_tokens cu = q.
Proof.
  apply (nonstreaming_maps_first_choice_and_usage (sample_model false)
           sample_env sample_messages None None ∅ sample_completion
           {| message := {| message_content := Some "1+1=2" |} |} [] "1+1=2").
  - reflexivity.
  - reflexivity.
  - reflexivity.
  - reflexivity.
  - discriminate.
Defined.

Lemma nonstreaming_without_text_has_no_segment_sample :
  ∃ r, __call__ (sample_model false) silent_env sample_messages None None ∅
       = Single r ∧ content r = [].
Proof.
  apply (nonstreaming_without_text_has_no_segment (sample_model false)
           silent_env sample_messages None None ∅ silent_completion).
  - reflexivity.
  - reflexivity.
  - right. eexists _, _. split; [reflexivity|]. right. reflexivity.
Defined.

Lemma streaming_texts_grow_by_prefix_sample :
  ∃ seq, yields (sample_model true) sample_env sample_messages None None ∅ seq
         ∧ prefix_chain seq.
Proof.
  apply (streaming_texts_grow_by_prefix (sample_model true) sample_env
           sample_messages None None ∅ sample_chunks); reflexivity.
Defined.

Lemma streaming_texts_extend_strictly_until_final_sample :
  ∃ seq, yields (sample_model true) sample_env sample_messages None None ∅ seq
         ∧ strict_prefix_chain_then_repeat seq ∧ final_carries_usage seq.
Proof.
  apply (streaming_texts_extend_strictly_until_final (sample_model true)
           sample_env sample_messages None None ∅ sample_chunks); reflexivity.
Defined.

Lemma streaming_one_value_per_text_chunk_and_a_final_one_sample :
  ∃ seq, yields (sample_model true) sample_env sample_messages None None ∅ seq
         ∧ length seq = S (length (List.filter has_text sample_chunks))
         ∧ ∀ k r, seq !! k = Some r →
             text_of r
             = Some (join (take (S k)
                             (raw_delta <$> List.filter has_text sample_chunks))).
Proof.
  apply (streaming_one_value_per_text_chunk_and_a_final_one (sample_model true)
           sample_env sample_messages None None ∅ sample_chunks); reflexivity.
Defined.

Lemma streaming_usage_only_on_final_sample :
  ∃ seq final u,
    yields (sample_model true) sample_env sample_messages None None ∅ seq
    ∧ last seq = Some final ∧ usage final = Some u
    ∧ input_tokens u = 0 ∧ output_tokens u = 0
    ∧ time u = total_seconds (now_at_parse sample_env - now_at_call sample_env)
    ∧ ((0 <= time u)%Q
       ↔ (now_at_call sample_env ≤ now_at_parse sample_env)%Z)
    ∧ intermediate_without_usage seq.
Proof.
  apply (streaming_usage_only_on_final (sample_model true) sample_env
           sample_messages None None ∅ sample_chunks); reflexivity.
Defined.

Lemma streaming_sequence_never_empty_sample :
  ∃ seq, yields (sample_model true) silent_env sample_messages None None ∅ seq
         ∧ seq ≠ []
         ∧ length seq = (1 + length (List.filter has_text silent_chunks))%nat
         ∧ ((∀ chunk, chunk ∈ silent_chunks → has_text chunk = false) →
            ∃ u, seq = [ {| content := [TextBlock ""]; usage := Some u |} ]).
Proof.
  apply (streaming_sequence_never_empty (sample_model true) silent_env
           sample_messages None None ∅ silent_chunks); reflexivity.
Defined.

Lemma streaming_ends_on_nonstreaming_text_sample :
  ∃ seq final r,
    yields (sample_model true) sample_env sample_messages None None ∅ seq
    ∧ last seq = Some final
    ∧ __call__ (sample_model false) sample_env sample_messages None None ∅
      = Single r
    ∧ text_of final = Some (completion_text sample_completion)
    ∧ (completion_text sample_completion ≠ "" →
       text_of r = Some (completion_text sample_completion)
       ∧ same_final_text seq r)
    ∧ (completion_text sample_completion = "" → content r = [])
    ∧ is_Some (usage final)
    ∧ intermediate_without_usage seq.
Proof.
  apply (streaming_ends_on_nonstreaming_text (sample_model true)
           (sample_model false) sample_env sample_env sample_messages None None
           ∅ sample_chunks sample_completion); reflexivity.
Defined.

(** On the sample stream the value before the last and the last one hold the
    same text: the chain of texts is not strict. *)
Lemma streaming_final_repeats_text :
  ∃ seq, yields (sample_model true) sample_env sample_messages None None ∅ seq
         ∧ ¬ (strict_prefix_chain seq ∧ final_carries_usage seq).
Proof.
  eexists. split; [by eexists|]. intros [Hstrict _].
  destruct (Hstrict 1%nat _ _ eq_refl eq_refl) as (t & t' & Ht & Ht' & _ & Hne).
  vm_compute in Ht, Ht'. by simplify_eq.
Qed.

(** The sample stream delivers four chunks and the call yields three
    values. *)
Lemma streaming_values_are_not_one_per_chunk :
  ∃ seq, yields (sample_model true) sample_env sample_messages None None ∅ seq
         ∧ length sample_chunks = 4%nat ∧ length seq = 3%nat
         ∧ length seq ≠ length sample_chunks.
Proof. eexists. split; [by eexists|]. by repeat split. Qed.

(** With the clock set back while the stream is read, the time of the usage
    record is negative. *)
Lemma streaming_time_negative_when_clock_set_back :
  ∃ seq final u,
    yields (sample_model true) set_back_env sample_messages None None ∅ seq
    ∧ last seq = Some final ∧ usage final = Some u
    ∧ ¬ (0 <= time u)%Q.
Proof.
  eexists _, _, _. split; [by eexists|]. do 2 (split; [reflexivity|]).
  by vm_compute.
Qed.

(** The completion has the empty text and so has the stream, yet the
    non-streaming response has no text segment while the last streamed value
    has one. *)
Lemma streaming_empty_text_has_no_nonstreaming_segment :
  join (raw_delta <$> silent_chunks) = completion_text silent_completion
  ∧ ∃ seq r,
      yields (sample_model true) silent_env sample_messages None None ∅ seq
      ∧ __call__ (sample_model false) silent_env sample_messages None None ∅
        = Single r
      ∧ ¬ same_final_text seq r.
Proof.
  split; [reflexivity|]. eexists _, _. split; [by eexists|].
  split; [reflexivity|]. intros (final & t & _ & _ & Hr). done.
Qed.

(** * Beyond the statements above *)

(** ** The request *)

Section request.
Variables (self : CustomOpenAICompatibleModel) (messages : list PyValue).
Variables (tools : option (list PyValue)) (tool_choice : option string).
Variable kwargs : gmap string PyValue.

Local Abbreviation request :=
  (request_kwargs self messages tools tool_choice kwargs).

(** Every entry of the request, in the order in which the code lets one
    source win over the other. *)
Lemma request_kwargs_lookup (k : string) :
  request !! k =
  match (if decide (k = "tool_choice") then truthy_str tool_choice else None),
        (if decide (k = "tools") then truthy_list tools else None) with
  | Some choice, _ => Some (PyStr choice)
  | None, Some ts => Some (PyList ts)
  | None, None => (kwargs ∪ fixed_entries self messages) !! k
  end.
Proof.
  unfold request_kwargs. fold (fixed_entries self messages).
  destruct (truthy_str tool_choice) as [choice|];
    destruct (truthy_list tools) as [ts|];
    repeat case_decide; simplify_eq;
    repeat (rewrite lookup_insert_eq || rewrite lookup_insert_ne by done);
    done.
Qed.

Lemma fixed_entries_lookup (k : string) :
  fixed_entries self messages !! k =
  if decide (k = "model") then Some (PyStr (model_name self))
  else if decide (k = "messages") then Some (PyList messages)
  else if decide (k = "stream") then Some (PyBool (stream self))
  else if decide (k = "temperature") then Some (PyFloat (temperature self))
  else if decide (k = "max_tokens") then Some (PyInt (max_tokens self))
  else None.
Proof.
  unfold fixed_entries.
  repeat case_decide; simplify_eq;
    repeat (rewrite lookup_insert_eq || rewrite lookup_insert_ne by done);
    rewrite ?lookup_empty; done.
Qed.

(** X1. An extra keyword argument of a call reaches the request with its
    value; under one of the configured keys [model], [stream], [temperature]
    and [max_tokens] it replaces the value of the adapter. The extra keywords
    are those Python leaves in [**kwargs]: none is named like a parameter. *)
Theorem request_keeps_extra_keyword (k : string) (v : PyValue) :
  bound_by_python kwargs →
  kwargs !! k = Some v →
  request_kwargs self messages tools tool_choice kwargs !! k = Some v.
Proof.
  intros (_ & _ & Htools & Hchoice) Hk. rewrite request_kwargs_lookup.
  repeat case_decide; simplify_eq; by erewrite lookup_union_Some_l.
Qed.

(** X2. Where no extra keyword argument has the key, the request carries
    the model name, the messages, the streaming flag, the temperature and the
    token limit of the adapter. *)
Theorem request_carries_configuration :
  (kwargs !! "model" = None →
   request_kwargs self messages tools tool_choice kwargs !! "model"
   = Some (PyStr (model_name self)))
  ∧ (kwargs !! "messages" = None →
     request_kwargs self messages tools tool_choice kwargs !! "messages"
     = Some (PyList messages))
  ∧ (kwargs !! "stream" = None →
     request_kwargs self messages tools tool_choice kwargs !! "stream"
     = Some (PyBool (stream self)))
  ∧ (kwargs !! "temperature" = None →
     request_kwargs self messages tools tool_choice kwargs !! "temperature"
     = Some (PyFloat (temperature self)))
  ∧ (kwargs !! "max_tokens" = None →
     request_kwargs self messages tools tool_choice kwargs !! "max_tokens"
     = Some (PyInt (max_tokens self))).
Proof.
  repeat split; intros Hk; rewrite request_kwargs_lookup; simpl;
    by rewrite lookup_union_r, fixed_entries_lookup.
Qed.

(** X3. A non-empty [tools] list is sent as the [tools] entry and a
    non-empty [tool_choice] as the [tool_choice] entry; for [None], the empty
    list and the empty string the request has no such entry. The extra
    keywords are those Python leaves in [**kwargs]. *)
Theorem request_tools_and_tool_choice :
  bound_by_python kwargs →
  (∀ t ts, tools = Some (t :: ts) →
     request_kwargs self messages tools tool_choice kwargs !! "tools"
     = Some (PyList (t :: ts)))
  ∧ (tools = None ∨ tools = Some [] →
     request_kwargs self messages tools tool_choice kwargs !! "tools" = None)
  ∧ (∀ choice, tool_choice = Some choice → choice ≠ "" →
     request_kwargs self messages tools tool_choice kwargs !! "tool_choice"
     = Some (PyStr choice))
  ∧ (tool_choice = None ∨ tool_choice = Some "" →
     request_kwargs self messages tools tool_choice kwargs !! "tool_choice"
     = None).
Proof.
  intros (_ & _ & Hktools & Hkchoice). repeat split.
  - intros t ts Ht. rewrite request_kwargs_lookup, Ht. simpl.
    by destruct (truthy_str tool_choice).
  - intros Hfalsy. rewrite request_kwargs_lookup. simpl.
    assert (truthy_list tools = None) as Hnone
      by (by destruct Hfalsy as [Ht|Ht]; rewrite Ht).
    by rewrite Hnone, lookup_union, fixed_entries_lookup, Hktools.
  - intros choice Hc Hne. rewrite request_kwargs_lookup, Hc. simpl.
    by destruct (String.eqb_spec choice "").
  - intros Hfalsy. rewrite request_kwargs_lookup. simpl.
    assert (truthy_str tool_choice = None) as Hnone
      by (by destruct Hfalsy as [Ht|Ht]; rewrite Ht).
    by rewrite Hnone, lookup_union, fixed_entries_lookup, Hkchoice.
Qed.

(** X4. The keys of the request are the keys of the extra keyword
    arguments, the five configured keys, [tools] when the argument is a
    non-empty list and [tool_choice] when the argument is a non-empty string:
    no extra keyword is dropped and no other key is sent. *)
Theorem request_keys (k : string) :
  is_Some (request_kwargs self messages tools tool_choice kwargs !! k)
  ↔ is_Some (kwargs !! k)
    ∨ k ∈ ["model"; "messages"; "stream"; "temperature"; "max_tokens"]
    ∨ (k = "tools" ∧ is_Some (truthy_list tools))
    ∨ (k = "tool_choice" ∧ is_Some (truthy_str tool_choice)).
Proof.
  rewrite request_kwargs_lookup, lookup_union, fixed_entries_lookup.
  rewrite !elem_of_cons, elem_of_nil.
  destruct (kwargs !! k) as [v|] eqn:Hk;
    destruct (truthy_str tool_choice) as [choice|];
    destruct (truthy_list tools) as [ts|];
    repeat case_decide; simplify_eq/=;
    rewrite ?is_Some_alt; intuition (try done; try congruence).
Qed.

End request.

(** ** The streaming flag of the adapter against the one of the request *)

Lemma failure_notice_nonempty (s : string) : "模型调用失败: " ++ s ≠ "".
Proof.
  intros Heq. apply (f_equal String.length) in Heq.
  rewrite length_append in Heq. vm_compute in Heq. lia.
Qed.

Section flags.
Variables (self : CustomOpenAICompatibleModel) (env : Env).
Variables (messages : list PyValue) (tools : option (list PyValue)).
Variables (tool_choice : option string) (kwargs : gmap string PyValue).

Hypothesis honoured : honours_stream_entry env.

Lemma request_stream_entry :
  request_kwargs self messages tools tool_choice kwargs !! "stream"
  = Some (default (PyBool (stream self)) (kwargs !! "stream")).
Proof.
  rewrite request_kwargs_lookup, lookup_union, fixed_entries_lookup. simpl.
  by destruct (kwargs !! "stream").
Qed.

(** X5. An extra keyword [stream=True] on an adapter configured
    non-streaming turns every call into a failure response, when the client
    answers by the [stream] entry of the request: the stream it returns has no
    [choices], and the handler reports that. *)
Theorem stream_keyword_on_nonstreaming_adapter_fails :
  stream self = false →
  kwargs !! "stream" = Some (PyBool true) →
  ∃ e, __call__ self env messages tools tool_choice kwargs
       = Single (failure_response e).
Proof.
  intros Hs Hk.
  assert (request_kwargs self messages tools tool_choice kwargs !! "stream"
          = Some (PyBool true)) as Hreq
    by (by rewrite request_stream_entry, Hk).
  destruct (honoured (request_kwargs self messages tools tool_choice kwargs))
    as [Hno _].
  specialize (Hno Hreq). unfold __call__. rewrite Hs.
  destruct (create env _) as [e|[c|chunks|chunks e]]; [by eexists| |by eexists..].
  by destruct (Hno c).
Qed.

(** X6. An extra keyword [stream=False] on an adapter configured
    streaming makes every call yield nothing, when the client answers by the
    [stream] entry of the request: the call reports a failure of the
    request, or returns a generator that raises as soon as it is iterated,
    before any value and outside the handler. *)
Theorem nonstream_keyword_on_streaming_adapter_never_yields :
  stream self = true →
  kwargs !! "stream" = Some (PyBool false) →
  (∀ seq, ¬ yields self env messages tools tool_choice kwargs seq)
  ∧ ((∃ e, __call__ self env messages tools tool_choice kwargs
           = Single (failure_response e))
     ∨ (∃ g e, __call__ self env messages tools tool_choice kwargs = Stream g
               ∧ consume (now_at_parse env) g = ([], Some e))).
Proof.
  intros Hs Hk.
  assert (request_kwargs self messages tools tool_choice kwargs !! "stream"
          = Some (PyBool false)) as Hreq
    by (by rewrite request_stream_entry, Hk).
  destruct (honoured (request_kwargs self messages tools tool_choice kwargs))
    as [_ Hno].
  destruct (Hno Hreq) as [Hstream Hbroken].
  unfold yields, __call__. rewrite Hs.
  destruct (create env _) as [e|[c|chunks|chunks e]].
  - split; [by intros seq (g & ? & _)|]. left. by eexists.
  - split; [by intros seq (g & [= <-] & ?)|]. right. by eexists _, _.
  - by destruct (Hstream chunks).
  - by destruct (Hbroken chunks e).
Qed.

(** X7. With no [stream] among the extra keywords and a client that
    answers by the [stream] entry of the request, a call has these outcomes
    only. Either the request raised and the call is the failure response; or,
    configured non-streaming, the call is the parsed completion; or,
    configured streaming, the call is a generator, which yields the whole
    sequence of a stream delivered to its end, or, for a stream that fails
    while it is read, the values of the loop followed by the exception at the
    consumer. *)
Theorem call_outcomes_when_flags_agree :
  kwargs !! "stream" = None →
  (∃ e, create env (request_kwargs self messages tools tool_choice kwargs)
        = Raises e
        ∧ __call__ self env messages tools tool_choice kwargs
          = Single (failure_response e))
  ∨ (if stream self
     then ∃ g chunks,
            __call__ self env messages tools tool_choice kwargs = Stream g
            ∧ ((create env
                  (request_kwargs self messages tools tool_choice kwargs)
                = Returns (AsyncStreamObj chunks)
                ∧ consume (now_at_parse env) g
                  = (_parse_stream_response (now_at_call env)
                       (now_at_parse env) chunks, None))
               ∨ (∃ e, create env
                         (request_kwargs self messages tools tool_choice
                            kwargs)
                       = Returns (BrokenStreamObj chunks e)
                       ∧ consume (now_at_parse env) g
                         = (yielded_in_loop "" chunks, Some e)))
     else ∃ c, create env (request_kwargs self messages tools tool_choice kwargs)
               = Returns (ChatCompletionObj c)
               ∧ __call__ self env messages tools tool_choice kwargs
                 = Single (_parse_response (now_at_call env)
                             (now_at_parse env) c)).
Proof.
  intros Hk. pose proof request_stream_entry as Hreq.
  rewrite Hk in Hreq. simpl in Hreq.
  destruct (honoured (request_kwargs self messages tools tool_choice kwargs))
    as [Htrue Hfalse].
  unfold __call__.
  destruct (create env _) as [e|[c|chunks|chunks e]] eqn:Hc;
    [left; by eexists|..]; right; destruct (stream self).
  - by destruct (Htrue Hreq c).
  - by eexists.
  - eexists _, chunks. split; [done|]. by left.
  - by destruct (proj1 (Hfalse Hreq) chunks).
  - eexists _, chunks. split; [done|]. right. by eexists.
  - by destruct (proj2 (Hfalse Hreq) chunks e).
Qed.

End flags.

(** ** The non-streaming response *)

(** X8. What a call configured non-streaming returns holds no segment or
    one text segment with a non-empty text, whatever the client does: there
    is never an empty text segment, a second segment, or a segment of another
    kind. *)
Theorem nonstreaming_content_is_empty_or_one_nonempty_text
    (self : CustomOpenAICompatibleModel) (env : Env)
    (messages : list PyValue) (tools : option (list PyValue))
    (tool_choice : option string) (kwargs : gmap string PyValue) :
  stream self = false →
  ∃ r, __call__ self env messages tools tool_choice kwargs = Single r
       ∧ (content r = [] ∨ ∃ t, t ≠ "" ∧ content r = [TextBlock t]).
Proof.
  intros Hs. unfold __call__. rewrite Hs.
  destruct (create env _) as [e|[c|chunks|chunks e]]; eexists;
    (split; [done|]).
  - right. eexists. split; [apply failure_notice_nonempty|done].
  - unfold _parse_response. simpl.
    destruct (first_choice_content c) as [t|] eqn:Ht; [|by left].
    right. exists t. split; [|done].
    unfold first_choice_content in Ht. destruct (choices c); [done|].
    by apply truthy_str_Some in Ht as [_ ?].
  - right. eexists. split; [apply failure_notice_nonempty|done].
  - right. eexists. split; [apply failure_notice_nonempty|done].
Qed.

(** X9. The parsed response has a usage record exactly when the completion
    reports usage; a token count that the completion leaves out is reported
    as zero, a count that it gives is reported as it is, and the time is the
    difference of the two readings of the clock, in seconds. *)
Theorem parsed_usage_follows_completion (start_time now : datetime)
    (response : ChatCompletion) :
  (response_usage response = None →
   usage (_parse_response start_time now response) = None)
  ∧ (∀ u, response_usage response = Some u →
       ∃ cu, usage (_parse_response start_time now response) = Some cu
             ∧ input_tokens cu = default 0 (prompt_tokens u)
             ∧ output_tokens cu = default 0 (completion_tokens u)
             ∧ time cu = total_seconds (now - start_time)).
Proof.
  unfold _parse_response. split.
  - by intros ->.
  - intros u ->. eexists. split; [done|]. simpl.
    assert (∀ o, or_zero o = default 0 o) as Hor.
    { intros [n|]; simpl; [|done]. case_match; lia. }
    by rewrite !Hor.
Qed.

(** ** The streamed sequence, chunk by chunk *)

Section streamed.
Variables start_time now : datetime.

Lemma chunk_delta_first_choice_only (chunk : ChatCompletionChunk) :
  chunk_delta (first_choice_only chunk) = chunk_delta chunk.
Proof. unfold chunk_delta. simpl. by destruct (chunk_choices chunk). Qed.

(** The sequence depends on the chunks through [chunk_delta] only. *)
Lemma stream_from_ext (acc : string) (chunks chunks' : list ChatCompletionChunk) :
  chunk_delta <$> chunks = chunk_delta <$> chunks' →
  stream_from start_time now acc chunks = stream_from start_time now acc chunks'.
Proof.
  revert acc chunks'.
  induction chunks as [|chunk rest IH]; intros acc [|chunk' rest'] Heq;
    try done.
  rewrite !fmap_cons in Heq. injection Heq as Hd Hrest.
  simpl. rewrite <- Hd. destruct (chunk_delta chunk); by rewrite (IH _ rest').
Qed.

Lemma stream_from_filter (acc : string) (chunks : list ChatCompletionChunk) :
  stream_from start_time now acc (List.filter has_text chunks)
  = stream_from start_time now acc chunks.
Proof.
  revert acc. induction chunks as [|chunk rest IH]; intros acc; [done|].
  simpl. rewrite has_text_chunk_delta.
  destruct (chunk_delta chunk) as [d|] eqn:Hd; simpl; [|done].
  by rewrite Hd, IH.
Qed.

Lemma deltas_app (chunks chunks' : list ChatCompletionChunk) :
  deltas (chunks ++ chunks')%list = (deltas chunks ++ deltas chunks')%list.
Proof. apply omap_app. Qed.

(** The values for a stream that goes on: those yielded in the loop over
    the first part, then the values of the second part from the text
    accumulated so far. *)
Lemma stream_from_app (acc : string) (chunks chunks' : list ChatCompletionChunk) :
  stream_from start_time now acc (chunks ++ chunks')%list
  = (take (length (deltas chunks)) (stream_from start_time now acc chunks)
     ++ stream_from start_time now (acc ++ join (deltas chunks)) chunks')%list.
Proof.
  revert acc. induction chunks as [|chunk rest IH]; intros acc.
  - simpl. by rewrite join_nil, append_nil_r.
  - rewrite deltas_cons. simpl.
    destruct (chunk_delta chunk) as [d|]; [|apply IH].
    simpl. by rewrite IH, join_cons, append_assoc.
Qed.

(** X10. Chunks without text leave no trace: a stream and the same stream
    without the chunks whose first choice has no or empty delta content
    yield the same sequence. *)
Theorem stream_skips_chunks_without_text (chunks : list ChatCompletionChunk) :
  _parse_stream_response start_time now (List.filter has_text chunks)
  = _parse_stream_response start_time now chunks.
Proof. apply stream_from_filter. Qed.

(** X11. Only the first choice of a chunk is read: a stream and the same
    stream with every chunk cut down to its first choice yield the same
    sequence. *)
Theorem stream_reads_first_choice_only (chunks : list ChatCompletionChunk) :
  _parse_stream_response start_time now (first_choice_only <$> chunks)
  = _parse_stream_response start_time now chunks.
Proof.
  apply stream_from_ext. rewrite <- list_fmap_compose.
  apply list_fmap_ext. intros i chunk _. apply chunk_delta_first_choice_only.
Qed.

(** X12. What is yielded while the first chunks arrive does not depend on
    the chunks that follow: up to the number of text-bearing chunks received
    so far, the sequence of a longer stream and the sequence of its first
    part hold the same values. *)
Theorem stream_values_do_not_depend_on_later_chunks
    (chunks later : list ChatCompletionChunk) (k : nat) :
  (k < length (List.filter has_text chunks))%nat →
  _parse_stream_response start_time now (chunks ++ later)%list !! k
  = _parse_stream_response start_time now chunks !! k.
Proof.
  intros Hk. rewrite <- length_deltas in Hk.
  unfold _parse_stream_response. rewrite stream_from_app.
  assert (length (take (length (deltas chunks))
                    (stream_from start_time now "" chunks))
          = length (deltas chunks)) as Hlen.
  { rewrite length_take, stream_from_length. lia. }
  rewrite lookup_app_l by lia. by rewrite lookup_take_lt.
Qed.

Lemma join_nonempty (d : string) (l : list string) :
  d ≠ "" → join (d :: l) ≠ "".
Proof.
  intros Hd Heq. apply (f_equal String.length) in Heq.
  rewrite join_cons, length_append in Heq. simpl in Heq.
  destruct d; [done|]. simpl in Heq. lia.
Qed.

(** X13. Every streamed value holds exactly one text segment, and the text
    of a value without a usage record is not empty: only the last value can
    hold the empty text. *)
Theorem streamed_values_hold_one_text_segment
    (chunks : list ChatCompletionChunk) (r : ChatResponse) :
  r ∈ _parse_stream_response start_time now chunks →
  ∃ t, content r = [TextBlock t] ∧ (usage r = None → t ≠ "").
Proof.
  intros Hr. apply list_elem_of_lookup in Hr as [k Hk].
  unfold _parse_stream_response in Hk.
  pose proof (stream_from_content _ _ _ _ _ _ Hk) as Hcontent.
  pose proof (stream_from_usage _ _ _ _ _ _ Hk) as Husage.
  eexists. split; [exact Hcontent|].
  intros Hnone. rewrite Hnone in Husage. case_decide; [done|].
  apply lookup_lt_Some in Hk. rewrite stream_from_length in Hk.
  destruct (deltas chunks) as [|d ds] eqn:Hds; [simpl in *; lia|].
  simpl. apply join_nonempty.
  eapply deltas_nonempty. rewrite Hds. left.
Qed.

End streamed.

(** ** The generator, pull by pull *)

Section pulls.
Variables start_time now : datetime.




(** X16. No value before the last depends on the clock: two runs over the
    same chunks with different readings of the clock yield the same values
    up to the last one. *)
Theorem streamed_values_before_the_last_ignore_the_clock
    (start_time' now' : datetime) (chunks : list ChatCompletionChunk)
    (k : nat) :
  (k < length (List.filter has_text chunks))%nat →
  _parse_stream_response start_time now chunks !! k
  = _parse_stream_response start_time' now' chunks !! k.
Proof.
  intros Hk. rewrite <- length_deltas in Hk.
  unfold _parse_stream_response.
  destruct (lookup_lt_is_Some_2 (stream_from start_time now "" chunks) k)
    as [r Hr]; [rewrite stream_from_length; lia|].
  destruct (lookup_lt_is_Some_2 (stream_from start_time' now' "" chunks) k)
    as [r' Hr']; [rewrite stream_from_length; lia|].
  rewrite Hr, Hr'. f_equal.
  pose proof (stream_from_content _ _ _ _ _ _ Hr) as Hc.
  pose proof (stream_from_content _ _ _ _ _ _ Hr') as Hc'.
  pose proof (stream_from_usage _ _ _ _ _ _ Hr) as Hu.
  pose proof (stream_from_usage _ _ _ _ _ _ Hr') as Hu'.
  destruct r, r'. simpl in *. repeat case_decide; try lia. congruence.
Qed.

End pulls.

(** ** The factories *)

Section factories.
Variable host : Host.

Local Abbreviation temperature_text :=
  (default "0.7" (environ host !! "CUSTOM_MODEL_TEMPERATURE")).
Local Abbreviation max_tokens_text :=
  (default "2048" (environ host !! "CUSTOM_MODEL_MAX_TOKENS")).


(** X17. When the start-up check of [test_custom_model.py] finds a
    variable missing (unset or empty), [create_custom_model] raises, and its
    message names the first missing variable in the order of the check,
    whatever the other settings are. *)
Theorem create_custom_model_names_first_missing_variable (var : string) :
  head (missing_vars host) = Some var →
  create_custom_model host
  = inl {| exc_str := "请在 .env 文件中设置 " ++ var |}.
Proof.
  unfold missing_vars, required_vars, create_custom_model. simpl.
  destruct (truthy_str (environ host !! "CUSTOM_OPENAI_API_KEY"));
    destruct (truthy_str (environ host !! "CUSTOM_OPENAI_BASE_URL"));
    destruct (truthy_str (environ host !! "CUSTOM_MODEL_NAME"));
    simpl; intros Hvar; by simplify_eq.
Qed.


(** X19. The model that [create_custom_model] returns is the adapter,
    configured non-streaming, with the name, the key and the address taken
    from the three variables as they are; a call on it returns one response,
    never a generator, whatever the client does. *)
Theorem create_custom_model_builds_nonstreaming_adapter
    (m : ChatModel) (f : Formatter) :
  create_custom_model host = inr (m, f) →
  ∃ model client,
    m = CustomModel model client ∧ f = OpenAIChatFormatter
    ∧ stream model = false
    ∧ environ host !! "CUSTOM_MODEL_NAME" = Some (model_name model)
    ∧ environ host !! "CUSTOM_OPENAI_API_KEY" = Some (client_api_key client)
    ∧ environ host !! "CUSTOM_OPENAI_BASE_URL" = Some (client_base_url client)
    ∧ ∀ env messages tools tool_choice kwargs,
        ∃ r, __call__ model env messages tools tool_choice kwargs = Single r.
Proof.
  unfold create_custom_model, __init__.
  destruct (truthy_str (environ host !! "CUSTOM_OPENAI_API_KEY"))
    as [key|] eqn:Hkey; [|done].
  destruct (truthy_str (environ host !! "CUSTOM_OPENAI_BASE_URL"))
    as [url|] eqn:Hurl; [|done].
  destruct (truthy_str (environ host !! "CUSTOM_MODEL_NAME"))
    as [name|] eqn:Hname; [|done].
  apply truthy_str_Some in Hkey as [Hkey _].
  apply truthy_str_Some in Hurl as [Hurl _].
  apply truthy_str_Some in Hname as [Hname _].
  destruct (py_float host temperature_text) as [e|t]; simpl; [done|].
  destruct (py_int host max_tokens_text) as [e|n]; simpl; [done|].
  destruct (openai_installed host); simpl; [|done].
  destruct (async_client_error host key url); simpl; [done|].
  intros [= <- <-]. eexists _, _. do 6 (split; [done|]).
  intros env messages tools tool_choice kwargs.
  by apply call_single_when_not_streaming.
Qed.

(** X20. [create_custom_openai_compatible_model] never fails for a
    variable that is not set: it takes the values of the variables, or the
    defaults where they are unset, and returns a model exactly when [float]
    and [int] accept the temperature and the token limit, [openai] can be
    imported and [openai.AsyncClient] accepts the key and the address; the
    model is then the adapter, configured streaming, with these values. *)
Theorem create_custom_openai_compatible_model_succeeds_exactly_when
    (m : ChatModel) (f : Formatter) :
  create_custom_openai_compatible_model host = inr (m, f)
  ↔ ∃ t n,
      py_float host temperature_text = inr t
      ∧ py_int host max_tokens_text = inr n
      ∧ openai_installed host = true
      ∧ async_client_error host
          (default "dummy-key" (environ host !! "CUSTOM_OPENAI_API_KEY"))
          (default "http://localhost:8000/v1"
             (environ host !! "CUSTOM_OPENAI_BASE_URL"))
        = None
      ∧ f = OpenAIChatFormatter
      ∧ m = CustomModel
              {| model_name :=
                   default "custom-model" (environ host !! "CUSTOM_MODEL_NAME");
                 stream := true; temperature := t; max_tokens := n |}
              {| client_api_key :=
                   default "dummy-key"
                     (environ host !! "CUSTOM_OPENAI_API_KEY");
                 client_base_url :=
                   default "http://localhost:8000/v1"
                     (environ host !! "CUSTOM_OPENAI_BASE_URL") |}.
Proof.
  unfold create_custom_openai_compatible_model, __init__.
  destruct (py_float host temperature_text) as [e|t]; simpl;
    [split; [done|by intros (? & ? & ? & _)]|].
  destruct (py_int host max_tokens_text) as [e|n]; simpl;
    [split; [done|by intros (? & ? & _ & ? & _)]|].
  destruct (openai_installed host); simpl;
    [|split; [done|by intros (? & ? & _ & _ & ? & _)]].
  destruct (async_client_error host _ _) as [e|]; simpl;
    [split; [done|by intros (? & ? & _ & _ & _ & ? & _)]|].
  split.
  - intros [= <- <-]. by eexists _, _.
  - intros (t' & n' & [= <-] & [= <-] & _ & _ & -> & ->). done.
Qed.

(** X21. The models of [create_custom_openai_compatible_model] and of
    [create_vllm_model] are configured streaming: whenever the request does
    not raise, a call on them returns a generator and no response. *)
Theorem streaming_factories_build_streaming_adapters
    (m : ChatModel) (f : Formatter) :
  create_custom_openai_compatible_model host = inr (m, f)
  ∨ create_vllm_model host = inr (m, f) →
  ∃ model client,
    m = CustomModel model client ∧ f = OpenAIChatFormatter
    ∧ stream model = true
    ∧ ∀ env messages tools tool_choice kwargs response,
        create env (request_kwargs model messages tools tool_choice kwargs)
        = Returns response →
        ∃ g, __call__ model env messages tools tool_choice kwargs = Stream g.
Proof.
  assert (∀ model : CustomOpenAICompatibleModel, stream model = true →
          ∀ env messages tools tool_choice kwargs response,
            create env (request_kwargs model messages tools tool_choice kwargs)
            = Returns response →
            ∃ g, __call__ model env messages tools tool_choice kwargs
                 = Stream g) as Hgen.
  { intros model Hs env messages tools tool_choice kwargs response Hc.
    unfold __call__. rewrite Hc, Hs. by eexists. }
  unfold create_custom_openai_compatible_model, create_vllm_model, __init__.
  intros [Hb|Hb]; revert Hb.
  - destruct (py_float host temperature_text) as [e|t]; simpl; [done|].
    destruct (py_int host max_tokens_text) as [e|n]; simpl; [done|].
    destruct (openai_installed host); simpl; [|done].
    destruct (async_client_error host _ _); simpl; [done|].
    intros [= <- <-]. eexists _, _. do 3 (split; [done|]). by apply Hgen.
  - destruct (openai_installed host); simpl; [|done].
    destruct (async_client_error host _ _); simpl; [done|].
    intros [= <- <-]. eexists _, _. do 3 (split; [done|]). by apply Hgen.
Qed.

(** X22. [create_openai_model] and [create_dashscope_model] return a model
    exactly when their key is set and not empty; the model is then the
    streaming one of the provider with that key. Unset and empty are both
    refused. *)
Theorem key_factories_need_their_key (m : ChatModel) (f : Formatter) :
  (create_openai_model host = inr (m, f)
   ↔ ∃ key, environ host !! "OPENAI_API_KEY" = Some key ∧ key ≠ ""
            ∧ m = OpenAIChatModel "gpt-4" key true ∧ f = OpenAIChatFormatter)
  ∧ (create_dashscope_model host = inr (m, f)
     ↔ ∃ key, environ host !! "DASHSCOPE_API_KEY" = Some key ∧ key ≠ ""
              ∧ m = DashScopeChatModel "qwen-max" key true
              ∧ f = DashScopeChatFormatter).
Proof.
  unfold create_openai_model, create_dashscope_model. split.
  - destruct (truthy_str (environ host !! "OPENAI_API_KEY")) as [key|] eqn:Hk.
    + apply truthy_str_Some in Hk as [Hk Hne]. split.
      * intros [= <- <-]. by exists key.
      * intros (key' & Hk' & _ & -> & ->). congruence.
    + apply truthy_str_None in Hk. split; [done|].
      intros (key' & Hk' & Hne & _). destruct Hk; congruence.
  - destruct (truthy_str (environ host !! "DASHSCOPE_API_KEY")) as [key|] eqn:Hk.
    + apply truthy_str_Some in Hk as [Hk Hne]. split.
      * intros [= <- <-]. by exists key.
      * intros (key' & Hk' & _ & -> & ->). congruence.
    + apply truthy_str_None in Hk. split; [done|].
      intros (key' & Hk' & Hne & _). destruct Hk; congruence.
Qed.

End factories.

(** X23. Choosing a model never ends in a [KeyError]: every answer selects
    a factory, and an answer other than ["1"] to ["5"] selects the one of
    DashScope. *)
Theorem selected_factory_never_missing (choice : string) :
  (∃ factory, selected_factory choice = Some factory)
  ∧ (choice ∉ ["1"; "2"; "3"; "4"; "5"] →
     selected_factory choice = Some create_dashscope_model).
Proof.
  unfold selected_factory.
  assert (model_map !! choice = None ↔ choice ∉ ["1"; "2"; "3"; "4"; "5"])
    as Hnone.
  { unfold model_map.
    rewrite !lookup_insert_None, !not_elem_of_cons, lookup_empty.
    pose proof (not_elem_of_nil choice). intuition congruence. }
  destruct (model_map !! choice) as [factory|] eqn:Hc.
  - split; [by eexists|]. intros Hnot. apply Hnone in Hnot. done.
  - split; [by eexists|]. done.
Qed.

(** ** A stream that fails while it is read *)

Lemma yielded_in_loop_stream_from (start_time now : datetime) (acc : string)
    (chunks : list ChatCompletionChunk) :
  yielded_in_loop acc chunks
  = take (length (deltas chunks)) (stream_from start_time now acc chunks).
Proof.
  revert acc. induction chunks as [|chunk rest IH]; intros acc; [done|].
  rewrite deltas_cons. simpl.
  destruct (chunk_delta chunk) as [d|]; simpl; by rewrite IH.
Qed.

(** X24. When the stream fails while it is read, the call has returned a
    generator already, and its consumer gets one value for each text-bearing
    chunk delivered before the failure, with the text accumulated so far and
    no usage record, and then the exception: the handler of [__call__] does
    not see it, and the last value with the usage record is never
    produced. *)
Theorem broken_stream_yields_then_raises
    (self : CustomOpenAICompatibleModel) (env : Env)
    (messages : list PyValue) (tools : option (list PyValue))
    (tool_choice : option string) (kwargs : gmap string PyValue)
    (chunks : list ChatCompletionChunk) (e : PyException) :
  stream self = true →
  create env (request_kwargs self messages tools tool_choice kwargs)
  = Returns (BrokenStreamObj chunks e) →
  ∃ g seq,
    __call__ self env messages tools tool_choice kwargs = Stream g
    ∧ consume (now_at_parse env) g = (seq, Some e)
    ∧ length seq = length (List.filter has_text chunks)
    ∧ (∀ k r, seq !! k = Some r →
         text_of r
         = Some (join (take (S k)
                         (raw_delta <$> List.filter has_text chunks)))
         ∧ usage r = None)
    ∧ (∀ seq', ¬ yields self env messages tools tool_choice kwargs seq').
Proof.
  intros Hs Hc. unfold yields, __call__. rewrite Hc, Hs.
  eexists _, _. split; [done|]. split; [done|].
  rewrite (yielded_in_loop_stream_from (now_at_call env) (now_at_parse env)).
  assert (length (take (length (deltas chunks))
                    (stream_from (now_at_call env) (now_at_parse env) ""
                       chunks))
          = length (deltas chunks)) as Hlen.
  { rewrite length_take, stream_from_length. lia. }
  split; [by rewrite Hlen, length_deltas|]. split.
  - intros k r Hk. pose proof (lookup_lt_Some _ _ _ Hk) as Hlt.
    rewrite Hlen in Hlt. rewrite lookup_take_lt in Hk by done.
    rewrite <- deltas_has_text. split; [by apply stream_from_text in Hk|].
    rewrite (stream_from_usage _ _ _ _ _ _ Hk). case_decide; [lia|done].
  - by intros seq' (g & [= <-] & ?).
Qed.

(** ** The further statements on sample inputs *)

Lemma sample_env_honours_stream_entry : honours_stream_entry sample_env.
Proof.
  intros request. unfold sample_env, sample_client. simpl.
  split; intros Hreq; rewrite Hreq; [done|]. by split.
Qed.


Lemma request_keeps_extra_keyword_sample :
  request_kwargs (sample_model false) sample_messages None None
    (stream_keyword true) !! "stream"
  = Some (PyBool true).
Proof.
  apply (request_keeps_extra_keyword (sample_model false) sample_messages
           None None (stream_keyword true) "stream" (PyBool true)).
  - repeat split; reflexivity.
  - reflexivity.
Defined.

Lemma stream_keyword_on_nonstreaming_adapter_fails_sample :
  ∃ e, __call__ (sample_model false) sample_env sample_messages None None
         (stream_keyword true)
       = Single (failure_response e).
Proof.
  apply (stream_keyword_on_nonstreaming_adapter_fails (sample_model false)
           sample_env sample_messages None None (stream_keyword true)
           sample_env_honours_stream_entry); reflexivity.
Defined.

Lemma nonstream_keyword_on_streaming_adapter_never_yields_sample :
  (∀ seq, ¬ yields (sample_model true) sample_env sample_messages None None
              (stream_keyword false) seq)
  ∧ ((∃ e, __call__ (sample_model true) sample_env sample_messages None None
             (stream_keyword false)
           = Single (failure_response e))
     ∨ (∃ g e, __call__ (sample_model true) sample_env sample_messages None
                 None (stream_keyword false) = Stream g
               ∧ consume (now_at_parse sample_env) g = ([], Some e))).
Proof.
  apply (nonstream_keyword_on_streaming_adapter_never_yields
           (sample_model true) sample_env sample_messages None None
           (stream_keyword false) sample_env_honours_stream_entry);
    reflexivity.
Defined.

Lemma call_outcomes_when_flags_agree_sample :
  (∃ e, create sample_env
          (request_kwargs (sample_model true) sample_messages None None ∅)
        = Raises e
        ∧ __call__ (sample_model true) sample_env sample_messages None None ∅
          = Single (failure_response e))
  ∨ (∃ g chunks,
       __call__ (sample_model true) sample_env sample_messages None None ∅
       = Stream g
       ∧ ((create sample_env
             (request_kwargs (sample_model true) sample_messages None None ∅)
           = Returns (AsyncStreamObj chunks)
           ∧ consume (now_at_parse sample_env) g
             = (_parse_stream_response (now_at_call sample_env)
                  (now_at_parse sample_env) chunks, None))
          ∨ (∃ e, create sample_env
                    (request_kwargs (sample_model true) sample_messages None
                       None ∅)
                  = Returns (BrokenStreamObj chunks e)
                  ∧ consume (now_at_parse sample_env) g
                    = (yielded_in_loop "" chunks, Some e)))).
Proof.
  apply (call_outcomes_when_flags_agree (sample_model true) sample_env
           sample_messages None None ∅ sample_env_honours_stream_entry).
  reflexivity.
Defined.

Lemma broken_stream_yields_then_raises_sample :
  ∃ g seq,
    __call__ (sample_model true) broken_env sample_messages None None ∅
    = Stream g
    ∧ consume (now_at_parse broken_env) g
      = (seq, Some {| exc_str := "Connection error." |})
    ∧ length seq = length (List.filter has_text [text_chunk "1+1"])
    ∧ (∀ k r, seq !! k = Some r →
         text_of r
         = Some (join (take (S k)
                         (raw_delta <$> List.filter has_text
                                          [text_chunk "1+1"])))
         ∧ usage r = None)
    ∧ (∀ seq', ¬ yields (sample_model true) broken_env sample_messages None
                   None ∅ seq').
Proof.
  apply (broken_stream_yields_then_raises (sample_model true) broken_env
           sample_messages None None ∅ [text_chunk "1+1"]
           {| exc_str := "Connection error." |}); reflexivity.
Defined.

Lemma nonstreaming_content_is_empty_or_one_nonempty_text_sample :
  ∃ r, __call__ (sample_model false) refusing_env sample_messages None None ∅
       = Single r
       ∧ (content r = [] ∨ ∃ t, t ≠ "" ∧ content r = [TextBlock t]).
Proof.
  apply (nonstreaming_content_is_empty_or_one_nonempty_text
           (sample_model false) refusing_env sample_messages None None ∅).
  reflexivity.
Defined.

Lemma stream_values_do_not_depend_on_later_chunks_sample :
  _parse_stream_response 1000000 3500000
    ([bare_chunk; text_chunk "1+1"] ++ [text_chunk "=2"; bare_chunk])%list
    !! 0%nat
  = _parse_stream_response 1000000 3500000 [bare_chunk; text_chunk "1+1"]
      !! 0%nat.
Proof.
  apply (stream_values_do_not_depend_on_later_chunks 1000000 3500000
           [bare_chunk; text_chunk "1+1"] [text_chunk "=2"; bare_chunk] 0).
  vm_compute. lia.
Defined.

Lemma streamed_values_hold_one_text_segment_sample :
  ∃ t, content {| content := [TextBlock "1+1"]; usage := None |}
       = [TextBlock t]
       ∧ (usage {| content := [TextBlock "1+1"]; usage := None |} = None →
          t ≠ "").
Proof.
  apply (streamed_values_hold_one_text_segment 1000000 3500000 sample_chunks).
  vm_compute. left.
Defined.

Lemma streamed_values_before_the_last_ignore_the_clock_sample :
  _parse_stream_response 1000000 3500000 sample_chunks !! 1%nat
  = _parse_stream_response 7199000000 3601000000 sample_chunks !! 1%nat.
Proof.
  apply (streamed_values_before_the_last_ignore_the_clock 1000000 3500000
           7199000000 3601000000 sample_chunks 1).
  vm_compute. lia.
Defined.

Lemma create_custom_model_names_first_missing_variable_sample :
  create_custom_model incomplete_host
  = inl {| exc_str := "请在 .env 文件中设置 " ++ "CUSTOM_OPENAI_BASE_URL" |}.
Proof.
  apply (create_custom_model_names_first_missing_variable incomplete_host
           "CUSTOM_OPENAI_BASE_URL").
  reflexivity.
Defined.

Lemma create_custom_model_builds_nonstreaming_adapter_sample :
  ∃ model client,
    CustomModel
      {| model_name := "Qwen/Qwen2.5-7B-Instruct"; stream := false;
         temperature := Qmake 1 5; max_tokens := 2048 |}
      {| client_api_key := "sk-sample";
         client_base_url := "http://localhost:8000/v1" |}
    = CustomModel model client
    ∧ OpenAIChatFormatter = OpenAIChatFormatter
    ∧ stream model = false
    ∧ environ sample_host !! "CUSTOM_MODEL_NAME" = Some (model_name model)
    ∧ environ sample_host !! "CUSTOM_OPENAI_API_KEY"
      = Some (client_api_key client)
    ∧ environ sample_host !! "CUSTOM_OPENAI_BASE_URL"
      = Some (client_base_url client)
    ∧ ∀ env messages tools tool_choice kwargs,
        ∃ r, __call__ model env messages tools tool_choice kwargs = Single r.
Proof.
  apply (create_custom_model_builds_nonstreaming_adapter sample_host).
  reflexivity.
Defined.

Lemma streaming_factories_build_streaming_adapters_sample :
  ∃ model client,
    CustomModel
      {| model_name := "Qwen/Qwen2.5-7B-Instruct"; stream := true;
         temperature := Qmake 7 10; max_tokens := 2048 |}
      {| client_api_key := "EMPTY";
         client_base_url := "http://localhost:8000/v1" |}
    = CustomModel model client
    ∧ OpenAIChatFormatter = OpenAIChatFormatter
    ∧ stream model = true
    ∧ ∀ env messages tools tool_choice kwargs response,
        create env (request_kwargs model messages tools tool_choice kwargs)
        = Returns response →
        ∃ g, __call__ model env messages tools tool_choice kwargs = Stream g.
Proof.
  apply (streaming_factories_build_streaming_adapters sample_host).
  right. reflexivity.
Defined.

Lemma request_carries_configuration_sample :
  request_kwargs (sample_model true) sample_messages None None ∅ !! "stream"
  = Some (PyBool true).
Proof.
  destruct (request_carries_configuration (sample_model true) sample_messages
              None None ∅) as (_ & _ & Hstream & _).
  apply Hstream. reflexivity.
Defined.

Lemma request_tools_and_tool_choice_sample :
  request_kwargs (sample_model true) sample_messages (Some []) (Some "auto")
    (stream_keyword true) !! "tools"
  = None
  ∧ request_kwargs (sample_model true) sample_messages (Some []) (Some "auto")
      (stream_keyword true) !! "tool_choice"
    = Some (PyStr "auto").
Proof.
  assert (bound_by_python (stream_keyword true)) as Hbound
    by (repeat split; reflexivity).
  destruct (request_tools_and_tool_choice (sample_model true) sample_messages
              (Some []) (Some "auto") (stream_keyword true) Hbound)
    as (_ & Htools & Hchoice & _).
  split.
  - apply Htools. right. reflexivity.
  - apply Hchoice; [reflexivity|discriminate].
Defined.

Lemma request_keys_sample :
  is_Some (request_kwargs (sample_model true) sample_messages None
             (Some "auto") ∅ !! "tool_choice").
Proof.
  apply (request_keys (sample_model true) sample_messages None (Some "auto") ∅
           "tool_choice").
  right. right. right. split; [reflexivity|]. by eexists.
Defined.

Lemma parsed_usage_follows_completion_sample :
  ∃ cu, usage (_parse_response 1000000 3500000
                 {| choices := [];
                    response_usage :=
                      Some {| prompt_tokens := None;
                              completion_tokens := Some 5 |} |})
        = Some cu
        ∧ input_tokens cu = 0 ∧ output_tokens cu = 5
        ∧ time cu = total_seconds (3500000 - 1000000).
Proof.
  destruct (parsed_usage_follows_completion 1000000 3500000
              {| choices := [];
                 response_usage :=
                   Some {| prompt_tokens := None;
                           completion_tokens := Some 5 |} |})
    as [_ Hsome].
  apply (Hsome {| prompt_tokens := None; completion_tokens := Some 5 |}).
  reflexivity.
Defined.


Lemma create_custom_openai_compatible_model_succeeds_exactly_when_sample :
  create_custom_openai_compatible_model sample_host
  = inr (CustomModel
           {| model_name := "Qwen/Qwen2.5-7B-Instruct"; stream := true;
              temperature := Qmake 1 5; max_tokens := 2048 |}
           {| client_api_key := "sk-sample";
              client_base_url := "http://localhost:8000/v1" |},
         OpenAIChatFormatter).
Proof.
  apply (create_custom_openai_compatible_model_succeeds_exactly_when
           sample_host).
  eexists _, _. repeat split; reflexivity.
Defined.

(** A key set to the empty string is passed on as it is, and the factory
    fails with what the client constructor raises. *)
Example create_custom_openai_compatible_model_empty_key :
  create_custom_openai_compatible_model keyless_host
  = inl {| exc_str := "The api_key client option must be set" |}.
Proof. reflexivity. Qed.

Lemma key_factories_need_their_key_sample :
  ¬ (∃ key, environ sample_host !! "OPENAI_API_KEY" = Some key ∧ key ≠ ""
            ∧ OpenAIChatModel "gpt-4" "sk-sample" true
              = OpenAIChatModel "gpt-4" key true
            ∧ OpenAIChatFormatter = OpenAIChatFormatter).
Proof.
  destruct (key_factories_need_their_key sample_host
              (OpenAIChatModel "gpt-4" "sk-sample" true) OpenAIChatFormatter)
    as [[_ Hopenai] _].
  intros Hkey. apply Hopenai in Hkey. vm_compute in Hkey. discriminate.
Defined.

Lemma selected_factory_never_missing_sample :
  selected_factory "7" = Some create_dashscope_model.
Proof.
  destruct (selected_factory_never_missing "7") as [_ Hother].
  apply Hother. rewrite !not_elem_of_cons.
  repeat split; try discriminate. apply not_elem_of_nil.
Defined.
